(** * NebulaDiary API: the entry endpoints and the search proxy

    A shallow embedding of [src/main.py] and [src/schemas.py].

    - Python dictionaries are [gmap string _]; decoded JSON keeps its objects
      as association lists.
    - The handlers read a global [db] that is [None] when no store is
      connected. Here a handler takes the ["entry"] collection as an
      [option] of a map from identifiers to documents, and returns what it
      raised or returned, the collection afterwards, and the store
      operations it issued.
    - [requests.get] is a function from the outbound request to the
      provider's reply; [search] also returns the requests it sent.
    - The clock is the argument [now]. The path [requests.utils.datetime]
      by which [update_entry] reaches for it does not exist, and the
      attribute access raises.
    - JSON numbers are integers; floating point numbers are not modelled. *)

From Stdlib Require Import ZArith Ascii String DecimalString.
From stdpp Require Import gmap strings list fin_maps.

Set Warnings "-register-all".
Local Open Scope string_scope.
Local Open Scope Z_scope.

(** ** Decoded JSON *)

Inductive json :=
| JNull
| JBool (b : bool)
| JInt (n : Z)
| JStr (s : string)
| JArr (items : list json)
| JObj (fields : list (string * json)).

#[global] Instance json_eq_dec : EqDecision json.
Proof.
  refine (fix go (a b : json) {struct a} : Decision (a = b) :=
    match a, b with
    | JNull, JNull => left _
    | JBool x, JBool y => cast_if (decide (x = y))
    | JInt x, JInt y => cast_if (decide (x = y))
    | JStr x, JStr y => cast_if (decide (x = y))
    | JArr x, JArr y => cast_if (@list_eq_dec _ go x y)
    | JObj x, JObj y => cast_if (@list_eq_dec _ (@prod_eq_dec _ _ _ go) x y)
    | _, _ => right _
    end); congruence.
Defined.

(** [key in d] and [d[key]] for a decoded object. *)
Fixpoint assoc (k : string) (fields : list (string * json)) : option json :=
  match fields with
  | [] => None
  | (k', v) :: rest => if String.eqb k k' then Some v else assoc k rest
  end.

(** Python truth value of a decoded JSON value, as [or] and [if] use it. *)
Definition truthy (v : json) : bool :=
  match v with
  | JNull => false
  | JBool b => b
  | JInt n => negb (n =? 0)
  | JStr s => negb (String.eqb s "")
  | JArr l => match l with [] => false | _ => true end
  | JObj l => match l with [] => false | _ => true end
  end.

(** [a or b] *)
Definition py_or (a b : json) : json := if truthy a then a else b.

(** [type(v).__name__] *)
Definition type_name (v : json) : string :=
  match v with
  | JNull => "NoneType"
  | JBool _ => "bool"
  | JInt _ => "int"
  | JStr _ => "str"
  | JArr _ => "list"
  | JObj _ => "dict"
  end.

(** ** Python strings *)

(** [str.isspace] on the code points below 256. *)
Definition is_space (c : ascii) : bool :=
  let n := nat_of_ascii c in
  ((9 <=? n) && (n <=? 13) || (28 <=? n) && (n <=? 32)
   || (n =? 133) || (n =? 160))%nat.

Fixpoint lstrip (s : string) : string :=
  match s with
  | EmptyString => EmptyString
  | String c rest => if is_space c then lstrip rest else s
  end.

Definition rstrip (s : string) : string := String.rev (lstrip (String.rev s)).

(** [s.strip()] *)
Definition strip (s : string) : string := rstrip (lstrip s).

(** [s[:n]] for a string, [n] of either sign. *)
Definition str_slice_to (n : Z) (s : string) : string :=
  if 0 <=? n then substring 0 (Z.to_nat n) s
  else substring 0 (String.length s - Z.to_nat (- n))%nat s.

(** [l[:n]] for a list, [n] of either sign. *)
Definition list_slice_to {A} (n : Z) (l : list A) : list A :=
  if 0 <=? n then take (Z.to_nat n) l
  else take (length l - Z.to_nat (- n))%nat l.

(** The characters of a string, as a [for] loop over it yields them. *)
Fixpoint chars (s : string) : list json :=
  match s with
  | EmptyString => []
  | String c rest => JStr (String c EmptyString) :: chars rest
  end.

(** ** Results and exceptions *)

Inductive result (E A : Type) :=
| Return (a : A)
| Raise (e : E).
Arguments Return {E A} a.
Arguments Raise {E A} e.

Definition bind {E A B} (m : result E A) (k : A -> result E B) : result E B :=
  match m with
  | Return a => k a
  | Raise e => Raise e
  end.

Declare Scope result_scope.
Delimit Scope result_scope with result.
Notation "x <- m ;; k" := (bind m (fun x => k))
  (at level 100, m at next level, right associativity) : result_scope.

(** What leaves a handler other than its return value. [InvalidId] is
    bson's, [StorageUnavailable] is the store adapter's and
    [AttributeError] is the interpreter's. None of the three is caught
    anywhere in [main.py]. *)
Inductive exn :=
| HTTPException (status_code : Z) (detail : string)
| RequestValidationError (field : string)
| InvalidId (text : string)
| StorageUnavailable
| AttributeError (text : string).

Abbreviation outcome := (result exn).

(** The status the framework answers with: an [HTTPException] carries its
    own, a body that fails validation is answered 422, and an exception no
    handler catches is answered 500. *)
Definition http_status {A} (o : outcome A) : Z :=
  match o with
  | Return _ => 200
  | Raise (HTTPException c _) => c
  | Raise (RequestValidationError _) => 422
  | Raise (InvalidId _) => 500
  | Raise StorageUnavailable => 500
  | Raise (AttributeError _) => 500
  end.

Definition server_class (c : Z) : bool := (500 <=? c) && (c <? 600).

(** An exception raised inside [search]'s [try] block is represented by its
    text [str(e)], the only part of it the [except] clause reads. *)
Abbreviation attempt := (result string).

(** The loop [for item in items: results.append(f(item))]: the first
    exception abandons the loop. *)
Fixpoint for_each {A B} (f : A -> attempt B) (items : list A) : attempt (list B) :=
  match items with
  | [] => Return []
  | item :: rest =>
      (r <- f item ;;
       rs <- for_each f rest ;;
       Return (r :: rs))%result
  end.

(** [v.get(key, default)]; a value that is no dictionary has no [get]. *)
Definition py_get (v : json) (key : string) (dflt : json) : attempt json :=
  match v with
  | JObj fields => Return (default dflt (assoc key fields))
  | _ => Raise ("'" +:+ type_name v +:+ "' object has no attribute 'get'")
  end.

(** [a or b], where [b] is evaluated only when [a] is false. *)
Definition py_or_else (a : json) (b : attempt json) : attempt json :=
  if truthy a then Return a else b.

(** [for item in v]: a list yields its items, a string its characters, a
    dictionary its keys. *)
Definition py_iter (v : json) : attempt (list json) :=
  match v with
  | JArr l => Return l
  | JStr s => Return (chars s)
  | JObj fields => Return (map (fun kv => JStr (fst kv)) fields)
  | _ => Raise ("'" +:+ type_name v +:+ "' object is not iterable")
  end.

(** ** Values held in a stored document *)

Inductive value :=
| Plain (j : json)
| Oid (text : string)        (* an ObjectId, by its 24 digit text *)
| Datetime (t : Z).          (* a naive UTC datetime *)

#[global] Instance value_eq_dec : EqDecision value.
Proof. solve_decision. Defined.

Abbreviation doc := (gmap string value).
Abbreviation collection := (gmap string (gmap string value)).

Definition VNone : value := Plain JNull.
Definition VStr (s : string) : value := Plain (JStr s).
Definition VInt (n : Z) : value := Plain (JInt n).
Definition VBool (b : bool) : value := Plain (JBool b).

Definition opt_value {A} (f : A -> value) (o : option A) : value :=
  match o with Some a => f a | None => VNone end.

(** ** schemas.py *)

Inductive MediaType := movie | series | anime.
Inductive Status := Planned | Watching | Completed | Dropped.

Definition MediaType_str (m : MediaType) : string :=
  match m with movie => "movie" | series => "series" | anime => "anime" end.

Definition Status_str (s : Status) : string :=
  match s with
  | Planned => "Planned" | Watching => "Watching"
  | Completed => "Completed" | Dropped => "Dropped"
  end.

Definition MediaType_of (s : string) : option MediaType :=
  if String.eqb s "movie" then Some movie
  else if String.eqb s "series" then Some series
  else if String.eqb s "anime" then Some anime
  else None.

Definition Status_of (s : string) : option Status :=
  if String.eqb s "Planned" then Some Planned
  else if String.eqb s "Watching" then Some Watching
  else if String.eqb s "Completed" then Some Completed
  else if String.eqb s "Dropped" then Some Dropped
  else None.

Module Entry.
Record t := {
  title : string;
  media_type : MediaType;
  year : option Z;
  image : option string;
  external_id : option string;
  source : option string;
  status : Status;
  rating : option Z;
  review : option string
}.

(** [payload.model_dump()] *)
Definition model_dump (e : t) : doc :=
  <["title" := VStr (title e)]>
  (<["media_type" := VStr (MediaType_str (media_type e))]>
  (<["year" := opt_value VInt (year e)]>
  (<["image" := opt_value VStr (image e)]>
  (<["external_id" := opt_value VStr (external_id e)]>
  (<["source" := opt_value VStr (source e)]>
  (<["status" := VStr (Status_str (status e))]>
  (<["rating" := opt_value VInt (rating e)]>
  (<["review" := opt_value VStr (review e)]> ∅)))))))).
End Entry.

Module EntryUpdate.
Record t := {
  status : option Status;
  rating : option Z;
  review : option string
}.

Definition put {A} (k : string) (f : A -> value) (o : option A) (d : doc) : doc :=
  match o with Some a => <[k := f a]> d | None => d end.

(** [payload.model_dump(exclude_none=True)] *)
Definition model_dump_exclude_none (p : t) : doc :=
  put "status" (fun s => VStr (Status_str s)) (status p)
  (put "rating" VInt (rating p)
  (put "review" VStr (review p) ∅)).
End EntryUpdate.

(** *** Validation of a request body

    A body is a decoded JSON object. A key that is missing and a key that
    is [null] both leave an optional field [None]; keys the model does not
    declare are ignored. An [int] field takes a JSON integer and a [str]
    field a JSON string. The conversions pydantic makes from other kinds
    of value, a numeric text or a boolean for an [int] field, are not
    modelled: such a value is refused here, and the statements below
    speak of JSON integers only. *)

Definition invalid {A} (field : string) : outcome A :=
  Raise (RequestValidationError field).

(** [Optional[int] = Field(None, ge=lo, le=hi)]; a bound that is not
    declared is [None]. *)
Definition optional_int (field : string) (ge le : option Z)
    (body : list (string * json)) : outcome (option Z) :=
  match assoc field body with
  | None | Some JNull => Return None
  | Some (JInt n) =>
      if match ge with Some lo => lo <=? n | None => true end
         && match le with Some hi => n <=? hi | None => true end
      then Return (Some n) else invalid field
  | Some _ => invalid field
  end.

Definition optional_str (field : string) (body : list (string * json))
    : outcome (option string) :=
  match assoc field body with
  | None | Some JNull => Return None
  | Some (JStr s) => Return (Some s)
  | Some _ => invalid field
  end.

Definition required_str (field : string) (body : list (string * json))
    : outcome string :=
  match assoc field body with
  | Some (JStr s) => Return s
  | _ => invalid field
  end.

(** A [Literal[...]] field, given the parser of its literals. *)
Definition literal {A} (of_string : string -> option A) (field : string)
    (v : json) : outcome A :=
  match v with
  | JStr s => match of_string s with Some a => Return a | None => invalid field end
  | _ => invalid field
  end.

(** [class Entry(BaseModel)] *)
Definition validate_Entry (body : list (string * json)) : outcome Entry.t :=
  (title <- required_str "title" body ;;
   media_type <- match assoc "media_type" body with
                 | Some v => literal MediaType_of "media_type" v
                 | None => invalid "media_type"
                 end ;;
   year <- optional_int "year" (Some 1800) (Some 2100) body ;;
   image <- optional_str "image" body ;;
   external_id <- optional_str "external_id" body ;;
   source <- optional_str "source" body ;;
   status <- match assoc "status" body with
             | Some v => literal Status_of "status" v
             | None => Return Planned
             end ;;
   rating <- optional_int "rating" (Some 1) (Some 5) body ;;
   review <- optional_str "review" body ;;
   Return {| Entry.title := title; Entry.media_type := media_type;
             Entry.year := year; Entry.image := image;
             Entry.external_id := external_id; Entry.source := source;
             Entry.status := status; Entry.rating := rating;
             Entry.review := review |})%result.

(** [class EntryUpdate(BaseModel)]: [rating] is declared
    [Optional[int] = None], without bounds. *)
Definition validate_EntryUpdate (body : list (string * json))
    : outcome EntryUpdate.t :=
  (status <- match assoc "status" body with
             | None | Some JNull => Return None
             | Some v => s <- literal Status_of "status" v ;; Return (Some s)
             end ;;
   rating <- optional_int "rating" None None body ;;
   review <- optional_str "review" body ;;
   Return {| EntryUpdate.status := status; EntryUpdate.rating := rating;
             EntryUpdate.review := review |})%result.

(** ** The search proxy's data *)

Module SearchResult.
Record t := {
  title : json;
  year : json;
  image : json;
  external_id : string;
  source : string;
  media_type : string
}.
End SearchResult.

(** The arguments of one [requests.get] call. *)
Record request := {
  url : string;
  params : list (string * json);
  timeout : Z
}.

(** What [requests.get] returned: [http_error] is the text of the error
    that [raise_for_status] raises for this response, and [json_body] is
    what [r.json()] returns or raises. *)
Record response := {
  status_code : Z;
  http_error : string;
  json_body : attempt json
}.

(** [r.raise_for_status()]: raises for a status from 400 to 599. *)
Definition raise_for_status (r : response) : attempt unit :=
  if (400 <=? status_code r) && (status_code r <? 600)
  then Raise (http_error r) else Return tt.

(** [requests.utils.datetime], the first step of
    [requests.utils.datetime.datetime.utcnow()]: the module
    [requests.utils] imports no [datetime], so the attribute access raises
    and [utcnow] is not called. *)
Definition no_datetime : exn :=
  AttributeError "module 'requests.utils' has no attribute 'datetime'".

Definition requests_utils_datetime : outcome unit := Raise no_datetime.

(** The store operations a handler issues, in order. *)
Inductive store_op :=
| InsertOne (record : doc)
| Find (filt : doc) (limit : option Z)
| UpdateOne (id : string) (set : doc)
| DeleteOne (id : string).

(** A handler's run: what it returned or raised, the collection afterwards
    ([None]: no store is connected), and the store operations it issued. *)
Record ran (A : Type) := Ran {
  outcome_of : outcome A;
  db_after : option collection;
  store_ops : list store_op
}.
Arguments Ran {A} _ _ _.
Arguments outcome_of {A} _.
Arguments db_after {A} _.
Arguments store_ops {A} _.

(** [if media_type:] for an optional query parameter: [None] and the empty
    string are both false. *)
Definition given (p : option string) : bool :=
  match p with
  | Some s => negb (String.eqb s "")
  | None => false
  end.

(** ** What the statements below speak of *)

(** A query that is empty or made of whitespace only. *)
Fixpoint blank (q : string) : bool :=
  match q with
  | EmptyString => true
  | String c rest => is_space c && blank rest
  end.

(** The ways a provider fails, with the text of the exception each one
    raises inside [search]: no reply at all (a timeout, a network error), a
    reply with an error status, a reply whose body is not JSON. *)
Inductive upstream_failure : attempt response -> string -> Prop :=
| no_reply text :
    upstream_failure (Raise text) text
| error_status r :
    400 <= status_code r < 600 ->
    upstream_failure (Return r) (http_error r)
| malformed_json r text :
    ~ (400 <= status_code r < 600) ->
    json_body r = Raise text ->
    upstream_failure (Return r) text.

(** A partial update that supplies at least one of its three fields. *)
Definition supplies (p : EntryUpdate.t) : Prop :=
  EntryUpdate.status p <> None \/ EntryUpdate.rating p <> None
  \/ EntryUpdate.review p <> None.

(** A body with none of the three fields of a partial update. *)
Definition no_recognized_field (body : list (string * json)) : Prop :=
  assoc "status" body = None /\ assoc "rating" body = None
  /\ assoc "review" body = None.

(** The year nested in a candidate's first-aired date,
    [aired.prop.from.year], and [None] where the path stops short. *)
Definition first_aired_year (fields : list (string * json)) : json :=
  match assoc "aired" fields with
  | Some (JObj aired) =>
      match assoc "prop" aired with
      | Some (JObj prop) =>
          match assoc "from" prop with
          | Some (JObj from) => default JNull (assoc "year" from)
          | _ => JNull
          end
      | _ => JNull
      end
  | _ => JNull
  end.

(** The year of an anime result against its candidate: the candidate's own
    year when that is present and true in Python's sense (not [None], [0],
    [False] or empty), the first-aired year otherwise. *)
Definition anime_year_rule (item : json) (res : SearchResult.t) : Prop :=
  exists fields, item = JObj fields /\
    SearchResult.year res =
      match assoc "year" fields with
      | Some y => if truthy y then y else first_aired_year fields
      | None => first_aired_year fields
      end.

(** A run that stopped on the missing store: it raised the adapter's or
    the handler's unavailability error, which is answered with a server
    class status, and issued no store operation. *)
Definition short_circuits {A} (r : ran A) : Prop :=
  (outcome_of r = Raise StorageUnavailable
   \/ outcome_of r = Raise (HTTPException 500 "Database not available"))
  /\ server_class (http_status (outcome_of r)) = true
  /\ store_ops r = []
  /\ db_after r = None.

Definition not_found : exn := HTTPException 404 "Entry not found".

(** *** Stand-ins for the examples *)

Definition is_hex_digit (c : ascii) : bool :=
  let n := nat_of_ascii c in
  ((48 <=? n) && (n <=? 57) || (65 <=? n) && (n <=? 70)
   || (97 <=? n) && (n <=? 102))%nat.

Fixpoint all_hex (s : string) : bool :=
  match s with
  | EmptyString => true
  | String c rest => is_hex_digit c && all_hex rest
  end.

Definition lower (c : ascii) : ascii :=
  let n := nat_of_ascii c in
  if ((65 <=? n) && (n <=? 70))%nat then ascii_of_nat (n + 32) else c.

Fixpoint lowercase (s : string) : string :=
  match s with
  | EmptyString => EmptyString
  | String c rest => String (lower c) (lowercase rest)
  end.

(** An [ObjectId] that takes the strings of 24 hexadecimal digits; its text
    has the digits in lower case. *)
Definition ObjectId24 (s : string) : option string :=
  if (String.length s =? 24)%nat && all_hex s then Some (lowercase s) else None.

(** [str] on scalars and identifiers, which is all the examples pass. *)
Definition str_scalar (v : value) : string :=
  match v with
  | Plain JNull => "None"
  | Plain (JBool true) => "True"
  | Plain (JBool false) => "False"
  | Plain (JInt n) => NilZero.string_of_int (Z.to_int n)
  | Plain (JStr s) => s
  | Oid text => text
  | _ => ""
  end.

(** The text Python 3.11 gives for slicing a dictionary. *)
Definition dict_slice_error311 (n : Z) : string := "unhashable type: 'slice'".

(** A network on which every request gets the same reply. *)
Definition always (reply : attempt response) : request -> attempt response :=
  fun _ => reply.

Definition ok_reply (payload : json) : attempt response :=
  Return {| status_code := 200; http_error := ""; json_body := Return payload |}.

(** A stored entry and the collection that holds it. *)
Definition dune_id : string := "65f0a1b2c3d4e5f601234567".
Definition other_id : string := "65f0a1b2c3d4e5f6012345ff".

Definition dune : doc :=
  Entry.model_dump
    {| Entry.title := "Dune"; Entry.media_type := movie;
       Entry.year := Some 2021; Entry.image := None;
       Entry.external_id := Some "1585809846"; Entry.source := Some "itunes";
       Entry.status := Planned; Entry.rating := Some 4;
       Entry.review := None |}.

Definition diary : collection := {[ dune_id := dune ]}.

Definition noon : Z := 1700000000.

(** A connection error as [requests] words it. *)
Definition pool_error : string :=
  "HTTPSConnectionPool(host='itunes.apple.com', port=443): Max retries exceeded with url: /search?term=dune&media=movie&limit=10 (Caused by ConnectTimeoutError)".

(** Jikan candidates: one with only a first-aired year, one whose own year
    is [0]. *)
Definition aired_in (y : Z) : string * json :=
  ("aired", JObj [("prop", JObj [("from", JObj [("day", JInt 3); ("year", JInt y)])])]).

Definition bebop : list (string * json) :=
  [("mal_id", JInt 1); ("title", JStr "Cowboy Bebop"); ("year", JNull);
   aired_in 1998].

Definition year_zero : list (string * json) :=
  [("mal_id", JInt 21); ("title", JStr "One Piece"); ("year", JInt 0);
   aired_in 1999].

Definition jikan (items : list (list (string * json))) : request -> attempt response :=
  always (ok_reply (JObj [("data", JArr (JObj <$> items))])).

(** ** The diagnostic endpoint *)

(** What [test_database] reads of the store handle [db]: its [name], when
    it has such an attribute, and what [db.list_collection_names()] returns
    or raises. *)
Record handle := {
  handle_name : option string;
  list_collection_names : attempt (list string)
}.

(** The dictionary [test_database] returns. The marks in its texts are
    held as their UTF-8 bytes. *)
Record report := {
  backend : string;
  database : string;
  database_url : string;
  database_name : string;
  connection_status : string;
  collections : list string
}.

(** [GET /test]. [DATABASE_URL] is what [os.getenv("DATABASE_URL")]
    returns. Nothing in the outer [try] raises for such a handle, so its
    [except] clause has no case here. *)
Definition test_database (db : option handle) (DATABASE_URL : option string)
    : report :=
  match db with
  | Some h =>
      let url := if given DATABASE_URL then "✅ Set" else "❌ Not Set" in
      let name := default "✅ Connected" (handle_name h) in
      match list_collection_names h with
      | Return names =>
          {| backend := "✅ Running";
             database := "✅ Connected & Working";
             database_url := url;
             database_name := name;
             connection_status := "Connected";
             collections := take 10 names |}
      | Raise text =>
          {| backend := "✅ Running";
             database := "⚠️ Connected but Error: " +:+ substring 0 80 text;
             database_url := url;
             database_name := name;
             connection_status := "Connected";
             collections := [] |}
      end
  | None =>
      {| backend := "✅ Running";
         database := "⚠️ Available but not initialized";
         database_url := "❌ Not Set";
         database_name := "❌ Not Set";
         connection_status := "Not Connected";
         collections := [] |}
  end.

(** ** What the further statements speak of *)

(** A field of a body that is missing or [null]. *)
Definition missing_or_null (field : string) (body : list (string * json)) : Prop :=
  assoc field body = None \/ assoc field body = Some JNull.

(** [(v or "")[:4] or None] for a date [v] that can be sliced: the first
    four characters of a text that is not empty, and [None] for a date
    that is missing, [null] or empty. *)
Definition year_prefix (date : option json) : json :=
  match date with
  | Some (JStr p) => if String.eqb p "" then JNull else JStr (substring 0 4 p)
  | Some (JArr (x :: l)) => JArr (take 4 (x :: l))
  | _ => JNull
  end.

(** A TVMaze result against its candidate. *)
Definition series_rule (item : json) (res : SearchResult.t) : Prop :=
  exists fields show,
    item = JObj fields
    /\ default (JObj []) (assoc "show" fields) = JObj show
    /\ SearchResult.title res = default JNull (assoc "name" show)
    /\ SearchResult.year res = year_prefix (assoc "premiered" show).

(** An iTunes result against its candidate. *)
Definition movie_rule (item : json) (res : SearchResult.t) : Prop :=
  exists fields,
    item = JObj fields
    /\ SearchResult.title res = default JNull (assoc "trackName" fields)
    /\ SearchResult.year res = year_prefix (assoc "releaseDate" fields)
    /\ SearchResult.image res = default JNull (assoc "artworkUrl100" fields).

(** The [images.jpg] dictionary of a Jikan candidate, empty where the
    candidate has none. *)
Definition jpg_of (fields : list (string * json)) : list (string * json) :=
  match assoc "images" fields with
  | Some (JObj images) =>
      match assoc "jpg" images with
      | Some (JObj jpg) => jpg
      | _ => []
      end
  | _ => []
  end.

(** The title and image of a Jikan result against its candidate: the large
    image when there is one, the standard image otherwise. *)
Definition anime_image_rule (item : json) (res : SearchResult.t) : Prop :=
  exists fields,
    item = JObj fields
    /\ SearchResult.title res = default JNull (assoc "title" fields)
    /\ SearchResult.image res =
         py_or (default JNull (assoc "large_image_url" (jpg_of fields)))
               (default JNull (assoc "image_url" (jpg_of fields))).

Definition provider_name (m : MediaType) : string :=
  match m with movie => "itunes" | series => "tvmaze" | anime => "jikan" end.

Definition is_object (v : json) : bool :=
  match v with JObj _ => true | _ => false end.

(** *** Further stand-ins for the examples *)

(** A store that assigns [other_id] to the record it is given. *)
Definition assign_other : collection -> string := fun _ => other_id.

Definition arrival : Entry.t :=
  {| Entry.title := "Arrival"; Entry.media_type := movie;
     Entry.year := None; Entry.image := None;
     Entry.external_id := None; Entry.source := None;
     Entry.status := Planned; Entry.rating := None;
     Entry.review := None |}.

Definition failing_probe : handle :=
  {| handle_name := Some "nebula";
     list_collection_names := Raise "connection refused" |}.

Definition the_wire : list (string * json) :=
  [("score", JInt 9);
   ("show", JObj [("id", JInt 179); ("name", JStr "The Wire");
                  ("premiered", JStr "2002-06-02");
                  ("image", JObj [("medium", JStr "https://tv.example/m.jpg")])])].

Definition undated_show : list (string * json) :=
  [("show", JObj [("id", JInt 5); ("name", JStr "Pilot"); ("premiered", JNull)])].

Definition tvmaze (items : list (list (string * json))) : request -> attempt response :=
  always (ok_reply (JArr (JObj <$> items))).

Definition dune_track : list (string * json) :=
  [("trackId", JInt 1585809846); ("trackName", JStr "Dune");
   ("releaseDate", JStr "2021-10-22T07:00:00Z");
   ("artworkUrl100", JStr "https://is1.example/100x100bb.jpg")].

Definition itunes (items : list (list (string * json))) : request -> attempt response :=
  always (ok_reply (JObj [("resultCount", JInt 1);
                          ("results", JArr (JObj <$> items))])).

Definition bebop_with_images : list (string * json) :=
  bebop ++ [("images", JObj [("jpg", JObj [("image_url", JStr "https://cdn.example/s.jpg");
                                           ("large_image_url", JNull)])])].

Section NebulaDiary.

(** [ObjectId(s)] of bson: [None] when it raises [InvalidId], otherwise
    the text [str(ObjectId(s))] of the identifier. *)
Variable ObjectId : string -> option string.

(** The identifier the store assigns to a record inserted into a
    collection. *)
Variable new_id : collection -> string.

(** Python's [str(v)]. *)
Variable py_str : value -> string.

(** The text of the exception that [d[:n]] raises for a dictionary [d];
    it differs between interpreter versions. *)
Variable dict_slice_error : Z -> string.

(** *** The store adapter

    [database.py] is not among the sources, and [db["entry"]] is a pymongo
    collection. The collection ["entry"] is a map from the identifier's
    text to the record's other fields. *)

(** Modelled from the spec: [create_document] of [database.py], section
    4.1: inserts the record, returns the newly assigned identifier as a
    string, and fails with [StorageUnavailable] if no store connection
    exists. *)
Definition create_document (db : option collection) (record : doc)
    : ran string :=
  match db with
  | None => Ran (Raise StorageUnavailable) None []
  | Some c =>
      let id := new_id c in
      Ran (Return id) (Some (<[id := record]> c)) [InsertOne record]
  end.

(** Modelled from the spec: [get_documents] of [database.py], section
    4.1: returns up to [limit] records matching an equality filter, each
    filter key matched exactly against the stored field. The records come
    in the store's own order, with their identifier under ["_id"]. With
    no store connection it fails as [create_document] does. *)
Definition get_documents (db : option collection) (filt : doc)
    (limit : option Z) : ran (list doc) :=
  match db with
  | None => Ran (Raise StorageUnavailable) None []
  | Some c =>
      let found :=
        filter (fun d : doc => map_Forall (fun k v => d !! k = Some v) filt)
               ((fun kv => <["_id" := Oid (fst kv)]> (snd kv))
                  <$> map_to_list c) in
      Ran (Return (match limit with
                   | Some n => take (Z.to_nat n) found
                   | None => found
                   end))
          db [Find filt limit]
  end.

(** Modelled from the spec: [updateOne] of section 4.1, which is
    [update_one({"_id": id}, {"$set": fields})]: applies a partial field
    merge to the single record with the given id and returns the matched
    count. *)
Definition update_one (c : collection) (id : string) (fields : doc)
    : nat * collection :=
  match c !! id with
  | Some d => (1%nat, <[id := fields ∪ d]> c)
  | None => (0%nat, c)
  end.

(** Modelled from the spec: [deleteOne] of section 4.1, which is
    [delete_one({"_id": id})]: removes the record with the given id and
    returns the deleted count. *)
Definition delete_one (c : collection) (id : string) : nat * collection :=
  match c !! id with
  | Some _ => (1%nat, delete id c)
  | None => (0%nat, c)
  end.

(** *** main.py: the entry endpoints *)

Definition serialize_doc (d : doc) : doc :=
  match d !! "_id" with
  | Some v => <["id" := VStr (py_str v)]> (delete "_id" d)
  | None => d
  end.

(** [POST /entries] *)
Definition create_entry (db : option collection) (payload : Entry.t)
    : ran doc :=
  let r := create_document db (Entry.model_dump payload) in
  match outcome_of r with
  | Raise e => Ran (Raise e) (db_after r) (store_ops r)
  | Return entry_id =>
      Ran (Return {[ "id" := VStr entry_id ]}) (db_after r) (store_ops r)
  end.

Definition list_entries_filter (media_type status : option string) : doc :=
  let filt : doc := ∅ in
  let filt := if given media_type
              then <["media_type" := opt_value VStr media_type]> filt
              else filt in
  let filt := if given status
              then <["status" := opt_value VStr status]> filt
              else filt in
  filt.

(** [GET /entries] *)
Definition list_entries (db : option collection)
    (media_type status : option string) (limit : option Z)
    : ran (list doc) :=
  let filt := list_entries_filter media_type status in
  let r := get_documents db filt limit in
  match outcome_of r with
  | Raise e => Ran (Raise e) (db_after r) (store_ops r)
  | Return docs =>
      Ran (Return (serialize_doc <$> docs)) (db_after r) (store_ops r)
  end.

(** [PATCH /entries/{entry_id}], once the body has been validated. The
    statement that stamps [updated_at] starts with the attribute access
    [requests.utils.datetime]; what follows it runs only if that
    returns. *)
Definition update_entry (now : Z) (db : option collection)
    (entry_id : string) (payload : EntryUpdate.t) : ran doc :=
  match db with
  | None => Ran (Raise (HTTPException 500 "Database not available")) db []
  | Some c =>
      let updates := EntryUpdate.model_dump_exclude_none payload in
      if decide (updates = ∅) then
        Ran (Return {[ "updated" := VBool false ]}) db []
      else
        match requests_utils_datetime with
        | Raise e => Ran (Raise e) db []
        | Return _ =>
            let updates := <["updated_at" := Datetime now]> updates in
            match ObjectId entry_id with
            | None => Ran (Raise (InvalidId entry_id)) db []
            | Some id =>
                let '(matched_count, c') := update_one c id updates in
                if (matched_count =? 0)%nat then
                  Ran (Raise (HTTPException 404 "Entry not found"))
                      (Some c') [UpdateOne id updates]
                else
                  Ran (Return {[ "updated" := VBool true ]})
                      (Some c') [UpdateOne id updates]
            end
        end
  end.

(** [DELETE /entries/{entry_id}] *)
Definition delete_entry (db : option collection) (entry_id : string)
    : ran doc :=
  match db with
  | None => Ran (Raise (HTTPException 500 "Database not available")) db []
  | Some c =>
      match ObjectId entry_id with
      | None => Ran (Raise (InvalidId entry_id)) db []
      | Some id =>
          let '(deleted_count, c') := delete_one c id in
          if (deleted_count =? 0)%nat then
            Ran (Raise (HTTPException 404 "Entry not found"))
                (Some c') [DeleteOne id]
          else
            Ran (Return {[ "deleted" := VBool true ]})
                (Some c') [DeleteOne id]
      end
  end.

(** The routes with a body: the framework validates the body against the
    handler's model and calls the handler only with a valid payload. *)
Definition POST_entries (db : option collection)
    (body : list (string * json)) : ran doc :=
  match validate_Entry body with
  | Raise e => Ran (Raise e) db []
  | Return payload => create_entry db payload
  end.

Definition PATCH_entries (now : Z) (db : option collection)
    (entry_id : string) (body : list (string * json)) : ran doc :=
  match validate_EntryUpdate body with
  | Raise e => Ran (Raise e) db []
  | Return payload => update_entry now db entry_id payload
  end.

(** *** main.py: the search proxy *)

(** [v[:n]] *)
Definition py_slice_to (v : json) (n : Z) : attempt json :=
  match v with
  | JArr l => Return (JArr (list_slice_to n l))
  | JStr s => Return (JStr (str_slice_to n s))
  | JObj _ => Raise (dict_slice_error n)
  | _ => Raise ("'" +:+ type_name v +:+ "' object is not subscriptable")
  end.

(** [(item.get("images", {}).get("jpg", {}) or {}).get(key)] *)
Definition jpg_image (item : json) (key : string) : attempt json :=
  (images <- py_get item "images" (JObj []) ;;
   jpg <- py_get images "jpg" (JObj []) ;;
   py_get (py_or jpg (JObj [])) key JNull)%result.

(** The dictionary appended for one Jikan item. *)
Definition anime_result (item : json) : attempt SearchResult.t :=
  (title <- py_get item "title" JNull ;;
   own_year <- py_get item "year" JNull ;;
   year <- py_or_else own_year
             (aired <- py_get item "aired" JNull ;;
              prop <- py_get (py_or aired (JObj [])) "prop" (JObj []) ;;
              from <- py_get prop "from" (JObj []) ;;
              py_get from "year" JNull) ;;
   large <- jpg_image item "large_image_url" ;;
   image <- py_or_else large (jpg_image item "image_url") ;;
   mal_id <- py_get item "mal_id" JNull ;;
   Return {| SearchResult.title := title;
             SearchResult.year := year;
             SearchResult.image := image;
             SearchResult.external_id := py_str (Plain mal_id);
             SearchResult.source := "jikan";
             SearchResult.media_type := "anime" |})%result.

(** The dictionary appended for one TVMaze item. *)
Definition series_result (item : json) : attempt SearchResult.t :=
  (show <- py_get item "show" (JObj []) ;;
   image0 <- py_get show "image" JNull ;;
   let img := py_or image0 (JObj []) in
   title <- py_get show "name" JNull ;;
   premiered <- py_get show "premiered" JNull ;;
   first4 <- py_slice_to (py_or premiered (JStr "")) 4 ;;
   original <- py_get img "original" JNull ;;
   image <- py_or_else original (py_get img "medium" JNull) ;;
   id <- py_get show "id" JNull ;;
   Return {| SearchResult.title := title;
             SearchResult.year := py_or first4 JNull;
             SearchResult.image := image;
             SearchResult.external_id := py_str (Plain id);
             SearchResult.source := "tvmaze";
             SearchResult.media_type := "series" |})%result.

(** The dictionary appended for one iTunes item. *)
Definition movie_result (item : json) : attempt SearchResult.t :=
  (title <- py_get item "trackName" JNull ;;
   released <- py_get item "releaseDate" JNull ;;
   first4 <- py_slice_to (py_or released (JStr "")) 4 ;;
   image <- py_get item "artworkUrl100" JNull ;;
   track_id <- py_get item "trackId" JNull ;;
   Return {| SearchResult.title := title;
             SearchResult.year := py_or first4 JNull;
             SearchResult.image := image;
             SearchResult.external_id := py_str (Plain track_id);
             SearchResult.source := "itunes";
             SearchResult.media_type := "movie" |})%result.

(** The one outbound request of a search. *)
Definition provider_request (q : string) (media_type : MediaType)
    (limit : Z) : request :=
  match media_type with
  | anime =>
      {| url := "https://api.jikan.moe/v4/anime";
         params := [("q", JStr q); ("limit", JInt (Z.min limit 10));
                    ("sfw", JBool true)];
         timeout := 10 |}
  | series =>
      {| url := "https://api.tvmaze.com/search/shows";
         params := [("q", JStr q)];
         timeout := 10 |}
  | movie =>
      {| url := "https://itunes.apple.com/search";
         params := [("term", JStr q); ("media", JStr "movie");
                    ("limit", JInt (Z.min limit 20))];
         timeout := 10 |}
  end.

(** The items the loop runs over: the reply's candidates, capped at
    [limit]. *)
Definition candidates (media_type : MediaType) (limit : Z) (r : response)
    : attempt (list json) :=
  (_u <- raise_for_status r ;;
   payload <- json_body r ;;
   match media_type with
   | anime =>
       data <- py_get payload "data" (JArr []) ;;
       capped <- py_slice_to data limit ;;
       py_iter capped
   | series =>
       capped <- py_slice_to payload limit ;;
       py_iter capped
   | movie =>
       data <- py_get payload "results" (JArr []) ;;
       capped <- py_slice_to data limit ;;
       py_iter capped
   end)%result.

Definition result_of (media_type : MediaType) : json -> attempt SearchResult.t :=
  match media_type with
  | anime => anime_result
  | series => series_result
  | movie => movie_result
  end.

(** The body of the [try] block, from the reply on. *)
Definition search_results (media_type : MediaType) (limit : Z)
    (r : response) : attempt (list SearchResult.t) :=
  (items <- candidates media_type limit r ;;
   for_each (result_of media_type) items)%result.

(** [GET /search]. [requests_get] is the network: what [requests.get]
    does with a request. The second component lists the requests sent. *)
Definition search (requests_get : request -> attempt response)
    (q : string) (media_type : MediaType) (limit : Z)
    : outcome (list SearchResult.t) * list request :=
  let q := strip q in
  if String.eqb q "" then (Return [], [])
  else
    let req := provider_request q media_type limit in
    let tried := (r <- requests_get req ;;
                  search_results media_type limit r)%result in
    (match tried with
     | Return results => Return results
     | Raise text =>
         Raise (HTTPException 502
                  ("Search failed: " +:+ substring 0 120 text))
     end, [req]).

(** ** Properties of the entry endpoints *)

Lemma dump_status (p : EntryUpdate.t) :
  EntryUpdate.model_dump_exclude_none p !! "status"
  = (fun s => VStr (Status_str s)) <$> EntryUpdate.status p.
Proof.
  unfold EntryUpdate.model_dump_exclude_none, EntryUpdate.put.
  destruct p as [[s|] [n|] [t|]]; simpl; by simplify_map_eq.
Qed.

Lemma dump_rating (p : EntryUpdate.t) :
  EntryUpdate.model_dump_exclude_none p !! "rating"
  = VInt <$> EntryUpdate.rating p.
Proof.
  unfold EntryUpdate.model_dump_exclude_none, EntryUpdate.put.
  destruct p as [[s|] [n|] [t|]]; simpl; by simplify_map_eq.
Qed.

Lemma dump_review (p : EntryUpdate.t) :
  EntryUpdate.model_dump_exclude_none p !! "review"
  = VStr <$> EntryUpdate.review p.
Proof.
  unfold EntryUpdate.model_dump_exclude_none, EntryUpdate.put.
  destruct p as [[s|] [n|] [t|]]; simpl; by simplify_map_eq.
Qed.

Lemma dump_empty_iff (p : EntryUpdate.t) :
  EntryUpdate.model_dump_exclude_none p = ∅ <-> ~ supplies p.
Proof.
  unfold supplies. split.
  - intros E [H | [H | H]]; apply H.
    + pose proof (dump_status p) as L. rewrite E, lookup_empty in L.
      by destruct (EntryUpdate.status p).
    + pose proof (dump_rating p) as L. rewrite E, lookup_empty in L.
      by destruct (EntryUpdate.rating p).
    + pose proof (dump_review p) as L. rewrite E, lookup_empty in L.
      by destruct (EntryUpdate.review p).
  - intros N. destruct p as [[s|] [n|] [t|]]; simpl in *;
      try (exfalso; apply N; auto; fail); reflexivity.
Qed.

(** A partial update that supplies a field stops at the attribute access:
    it raises before the identifier is converted and before the store is
    reached. *)
Lemma update_entry_supplied (now : Z) (c : collection) (entry_id : string)
    (payload : EntryUpdate.t) :
  supplies payload ->
  update_entry now (Some c) entry_id payload = Ran (Raise no_datetime) (Some c) [].
Proof.
  intros S. unfold update_entry.
  destruct (decide (EntryUpdate.model_dump_exclude_none payload = ∅)) as [E | _].
  { by apply dump_empty_iff in E. }
  reflexivity.
Qed.

Lemma update_entry_not_supplied (now : Z) (c : collection) (entry_id : string)
    (payload : EntryUpdate.t) :
  ~ supplies payload ->
  update_entry now (Some c) entry_id payload
  = Ran (Return {[ "updated" := VBool false ]}) (Some c) [].
Proof.
  intros S. unfold update_entry.
  destruct (decide _) as [_ | N]; [done |].
  by apply dump_empty_iff in S.
Qed.

(** C3. With no store connected, create, partial update and delete each
    stop at the availability check: they raise the unavailability error,
    answered with a server class status, whatever the identifier and the
    payload are, and issue no store operation. *)
Theorem unavailable_store_short_circuits (now : Z) (entry_id : string)
    (created : Entry.t) (update : EntryUpdate.t) :
  short_circuits (create_entry None created)
  /\ short_circuits (update_entry now None entry_id update)
  /\ short_circuits (delete_entry None entry_id).
Proof.
  unfold short_circuits; repeat split; simpl; auto.
Qed.

(** C5, amended. On a connected store, a partial update whose body has
    none of status, rating and review answers [{updated: false}], issues
    no store operation and leaves the collection as it was. *)
Theorem patch_without_fields_is_noop (now : Z) (c : collection)
    (entry_id : string) (body : list (string * json)) :
  no_recognized_field body ->
  PATCH_entries now (Some c) entry_id body
  = Ran (Return {[ "updated" := VBool false ]}) (Some c) [].
Proof.
  intros (S & R & V).
  unfold PATCH_entries, validate_EntryUpdate, optional_int, optional_str.
  rewrite S, R, V. simpl. unfold update_entry.
  by destruct (decide _).
Qed.

Lemma delete_entry_connected (c : collection) (entry_id id : string) :
  ObjectId entry_id = Some id ->
  delete_entry (Some c) entry_id
  = match c !! id with
    | Some _ => Ran (Return {[ "deleted" := VBool true ]})
                    (Some (delete id c)) [DeleteOne id]
    | None => Ran (Raise not_found) (Some c) [DeleteOne id]
    end.
Proof.
  intros I. unfold delete_entry, delete_one. rewrite I.
  by destruct (c !! id).
Qed.

(** C6, amended. On a connected store, with an identifier that is a valid
    ObjectId and matches no stored entry, a delete raises the not-found
    error and leaves the collection as it was; a delete that follows a
    delete of the same identifier raises the not-found error; and a
    partial update that supplies no field answers [{updated: false}],
    whatever the identifier is. *)
Theorem unknown_id_is_not_found (c : collection) (entry_id id : string) :
  ObjectId entry_id = Some id ->
  (c !! id = None ->
     delete_entry (Some c) entry_id
     = Ran (Raise not_found) (Some c) [DeleteOne id])
  /\ outcome_of (delete_entry (db_after (delete_entry (Some c) entry_id))
                              entry_id)
     = Raise not_found
  /\ (forall (now : Z) (payload : EntryUpdate.t),
        ~ supplies payload ->
        update_entry now (Some c) entry_id payload
        = Ran (Return {[ "updated" := VBool false ]}) (Some c) []).
Proof.
  intros I. split; [| split].
  - intros L. by rewrite (delete_entry_connected _ _ _ I), L.
  - rewrite (delete_entry_connected c _ _ I).
    destruct (c !! id) eqn:L; cbn [db_after].
    + by rewrite (delete_entry_connected _ _ _ I), lookup_delete_eq.
    + by rewrite (delete_entry_connected _ _ _ I), L.
  - intros now payload S. by apply update_entry_not_supplied.
Qed.

(** C9, amended. On a connected store, with an identifier that is not a
    valid ObjectId: a delete raises [InvalidId] at the conversion, before
    the store is reached, so that no store operation is issued, the
    collection is as it was and the not-found error is not raised; and a
    partial update that supplies no field answers [{updated: false}]
    before the conversion, with no store operation either. *)
Theorem invalid_id_never_reaches_store (c : collection) (entry_id : string) :
  ObjectId entry_id = None ->
  delete_entry (Some c) entry_id
  = Ran (Raise (InvalidId entry_id)) (Some c) []
  /\ outcome_of (delete_entry (Some c) entry_id) <> Raise not_found
  /\ (forall (now : Z) (payload : EntryUpdate.t),
        ~ supplies payload ->
        update_entry now (Some c) entry_id payload
        = Ran (Return {[ "updated" := VBool false ]}) (Some c) []).
Proof.
  intros I.
  assert (delete_entry (Some c) entry_id
          = Ran (Raise (InvalidId entry_id)) (Some c) []) as D.
  { unfold delete_entry. by rewrite I. }
  split; [done |]. split; [by rewrite D |].
  intros now payload S. by apply update_entry_not_supplied.
Qed.


(** A partial update whose only field is a rating passes validation,
    whatever integer the rating is, and the handler runs. *)
Lemma patch_rating_unchecked (now n : Z) (db : option collection)
    (entry_id : string) :
  validate_EntryUpdate [("rating", JInt n)]
  = Return {| EntryUpdate.status := None; EntryUpdate.rating := Some n;
              EntryUpdate.review := None |}
  /\ PATCH_entries now db entry_id [("rating", JInt n)]
     = update_entry now db entry_id
         {| EntryUpdate.status := None; EntryUpdate.rating := Some n;
            EntryUpdate.review := None |}.
Proof. split; reflexivity. Qed.

(** ** Properties of the search proxy *)

Lemma bind_Return {E A B} (m : result E A) (k : A -> result E B) (b : B) :
  bind m k = Return b -> exists a, m = Return a /\ k a = Return b.
Proof. destruct m as [a | e]; simpl; [eauto | discriminate]. Qed.

Lemma lstrip_blank (q : string) : blank q = true -> lstrip q = "".
Proof.
  induction q as [| c q IH]; simpl; [done |].
  intros [C B]%andb_prop. rewrite C. auto.
Qed.

Lemma strip_blank (q : string) : blank q = true -> strip q = "".
Proof. intros B. unfold strip. by rewrite (lstrip_blank q B). Qed.

(** C7. A query that is empty, or made of whitespace only, or empty once
    trimmed, is answered with the empty list, and no request is sent to
    any provider. *)
Theorem search_blank_query (requests_get : request -> attempt response)
    (q : string) (media_type : MediaType) (limit : Z) :
  blank q = true \/ strip q = "" ->
  search requests_get q media_type limit = (Return [], []).
Proof.
  intros [B | E]; unfold search.
  - by rewrite (strip_blank q B).
  - by rewrite E.
Qed.

Lemma substring_length_le (s : string) (n : nat) :
  (String.length (substring 0 n s) <= n)%nat.
Proof.
  revert n. induction s as [| c s IH]; intros [| n]; simpl; try lia.
  specialize (IH n). lia.
Qed.

Lemma string_app_length (a b : string) :
  String.length (a +:+ b) = (String.length a + String.length b)%nat.
Proof. induction a as [| c a IH]; simpl; [done | by rewrite IH]. Qed.

Lemma search_nonblank (requests_get : request -> attempt response)
    (q : string) (media_type : MediaType) (limit : Z) :
  strip q <> "" ->
  search requests_get q media_type limit
  = let req := provider_request (strip q) media_type limit in
    (match bind (requests_get req) (search_results media_type limit) with
     | Return results => Return results
     | Raise text =>
         Raise (HTTPException 502
                  ("Search failed: " +:+ substring 0 120 text))
     end, [req]).
Proof.
  intros N. unfold search.
  by destruct (String.eqb_spec (strip q) "").
Qed.

(** C4, amended. Whatever the provider does, a search either returns its
    results or raises the one error of status 502 whose detail is the
    fixed prefix "Search failed: " followed by the first 120 characters
    of the failure's text, 135 characters at most; and it raises it for a
    provider that does not reply, that replies with an error status, or
    whose reply is not JSON. *)
Theorem search_failure_is_bad_gateway
    (requests_get : request -> attempt response)
    (q : string) (media_type : MediaType) (limit : Z) :
  (forall text,
     strip q <> "" ->
     upstream_failure
       (requests_get (provider_request (strip q) media_type limit)) text ->
     fst (search requests_get q media_type limit)
     = Raise (HTTPException 502
                ("Search failed: " +:+ substring 0 120 text)))
  /\ (forall e,
        fst (search requests_get q media_type limit) = Raise e ->
        exists text,
          e = HTTPException 502 ("Search failed: " +:+ substring 0 120 text)
          /\ (String.length (substring 0 120 text) <= 120)%nat
          /\ (String.length ("Search failed: " +:+ substring 0 120 text)
              <= 135)%nat).
Proof.
  split.
  - intros text N F. rewrite (search_nonblank _ _ _ _ N). simpl.
    remember (requests_get _) as reply eqn:R. clear R.
    destruct F as [text | r S | r text S J]; simpl; [done | |].
    + unfold search_results, candidates, raise_for_status.
      destruct (Z.leb_spec 400 (status_code r)); [| lia].
      destruct (Z.ltb_spec (status_code r) 600); [| lia]. done.
    + unfold search_results, candidates, raise_for_status.
      destruct (Z.leb_spec 400 (status_code r));
        destruct (Z.ltb_spec (status_code r) 600);
        simpl; try lia; by rewrite J.
  - intros e. unfold search.
    destruct (String.eqb (strip q) ""); simpl; [discriminate |].
    destruct (bind _ _) as [results | text]; [discriminate |].
    intros [= <-]. exists text. split; [done |].
    pose proof (substring_length_le text 120) as B. split; [done |].
    rewrite string_app_length. simpl. lia.
Qed.

Lemma for_each_Forall2 {A B} (f : A -> attempt B) (P : A -> B -> Prop) :
  (forall a b, f a = Return b -> P a b) ->
  forall items rs, for_each f items = Return rs -> Forall2 P items rs.
Proof.
  intros F. induction items as [| item items IH]; simpl; intros rs E.
  - injection E as <-. constructor.
  - apply bind_Return in E as (r & R & E).
    apply bind_Return in E as (rs' & RS & E).
    injection E as <-. constructor; auto.
Qed.

(** The fallback of [anime_result], when it does not raise, is the
    first-aired year. *)
Lemma aired_year_chain (fields : list (string * json)) (y : json) :
  (aired <- py_get (JObj fields) "aired" JNull ;;
   prop <- py_get (py_or aired (JObj [])) "prop" (JObj []) ;;
   from <- py_get prop "from" (JObj []) ;;
   py_get from "year" JNull)%result = Return y ->
  y = first_aired_year fields.
Proof.
  unfold first_aired_year, py_or. simpl.
  destruct (assoc "aired" fields) as [[| b | n | t | l | aired] |]; simpl.
  - congruence.
  - destruct b; simpl; [discriminate | congruence].
  - destruct (negb (n =? 0)); simpl; [discriminate | congruence].
  - destruct (negb (String.eqb t "")); simpl; [discriminate | congruence].
  - destruct l; simpl; [congruence | discriminate].
  - assert (py_get (if match aired with [] => false | _ :: _ => true end
                    then JObj aired else JObj []) "prop" (JObj [])
            = py_get (JObj aired) "prop" (JObj [])) as ->
      by (by destruct aired).
    simpl.
    destruct (assoc "prop" aired) as [[| b | n | t | l | prop] |]; simpl;
      try discriminate; try congruence.
    destruct (assoc "from" prop) as [[| b | n | t | l | from] |]; simpl;
      try discriminate; congruence.
  - congruence.
Qed.

Lemma anime_result_year (item : json) (res : SearchResult.t) :
  anime_result item = Return res -> anime_year_rule item res.
Proof.
  destruct item as [| b | n | t | l | fields]; try discriminate.
  unfold anime_result. intros E. exists fields. split; [done |].
  apply bind_Return in E as (title & _ & E).
  apply bind_Return in E as (own & O & E).
  apply bind_Return in E as (year & Y & E).
  apply bind_Return in E as (large & _ & E).
  apply bind_Return in E as (image & _ & E).
  apply bind_Return in E as (mal_id & _ & E).
  injection E as <-. simpl.
  simpl in O. injection O as <-.
  unfold py_or_else in Y.
  destruct (assoc "year" fields) as [y |]; simpl in Y.
  - destruct (truthy y); [congruence |]. by apply aired_year_chain.
  - by apply aired_year_chain.
Qed.

(** C8, amended. When an anime search returns results, they answer the
    reply's candidates one for one, and the year of each is its
    candidate's own year when that is present and true in Python's sense
    (not [None], [0], [False] or empty), and otherwise the year nested in
    the candidate's first-aired date. *)
Theorem anime_year_of_results (requests_get : request -> attempt response)
    (q : string) (limit : Z) (results : list SearchResult.t) :
  strip q <> "" ->
  fst (search requests_get q anime limit) = Return results ->
  exists r items,
    requests_get (provider_request (strip q) anime limit) = Return r
    /\ candidates anime limit r = Return items
    /\ Forall2 anime_year_rule items results.
Proof.
  intros N. rewrite (search_nonblank _ _ _ _ N). simpl.
  destruct (requests_get _) as [r | text] eqn:R; simpl; [| discriminate].
  unfold search_results.
  destruct (candidates anime limit r) as [items | text] eqn:C; simpl;
    [| discriminate].
  destruct (for_each _ items) as [rs |] eqn:F; [| discriminate].
  intros [= <-]. exists r, items. do 2 (split; [done |]).
  eapply for_each_Forall2; [| exact F]. apply anime_result_year.
Qed.

(** ** Further properties of the entry endpoints *)

(** X1. [serialize_doc] renames the identifier: a document with an ["_id"]
    comes back without it, with its text under ["id"], and with every
    other field as it was. *)
Theorem serialize_doc_renames_id (d : doc) (v : value) :
  d !! "_id" = Some v ->
  serialize_doc d !! "_id" = None
  /\ serialize_doc d !! "id" = Some (VStr (py_str v))
  /\ forall k : string, k <> "_id" -> k <> "id" -> serialize_doc d !! k = d !! k.
Proof.
  intros L. unfold serialize_doc. rewrite L. repeat split.
  - rewrite lookup_insert_ne by done. apply lookup_delete_eq.
  - apply lookup_insert_eq.
  - intros k K1 K2. rewrite lookup_insert_ne by done.
    by rewrite lookup_delete_ne.
Qed.

Lemma serialize_doc_no_id (d : doc) : serialize_doc d !! "_id" = None.
Proof.
  unfold serialize_doc. destruct (d !! "_id") eqn:L; [| done].
  rewrite lookup_insert_ne by done. apply lookup_delete_eq.
Qed.

(** X2. [serialize_doc] never leaves an ["_id"] in its result, and applying
    it to its own result changes nothing. *)
Theorem serialize_doc_idempotent (d : doc) :
  serialize_doc d !! "_id" = None
  /\ serialize_doc (serialize_doc d) = serialize_doc d.
Proof.
  split; [apply serialize_doc_no_id |].
  unfold serialize_doc at 1. by rewrite serialize_doc_no_id.
Qed.

Lemma get_documents_connected (c : collection) (filt : doc) (limit : option Z) :
  outcome_of (get_documents (Some c) filt limit)
  = Return (let found :=
              filter (fun d : doc => map_Forall (fun k v => d !! k = Some v) filt)
                     ((fun kv => <["_id" := Oid (fst kv)]> (snd kv))
                        <$> map_to_list c) in
            match limit with
            | Some n => take (Z.to_nat n) found
            | None => found
            end).
Proof. reflexivity. Qed.

(** X3. An entry created on a connected store is listed afterwards: the
    create answers the identifier the store assigned, and a listing
    without filter, with a limit above the number of records held before
    the create (the route's default is 100), then holds a document that
    has this identifier under ["id"], no ["_id"], and the fields of the
    payload. *)
Theorem created_entry_is_listed (c : collection) (body : list (string * json))
    (payload : Entry.t) (limit : Z) :
  (forall text, py_str (Oid text) = text) ->
  validate_Entry body = Return payload ->
  (size c < Z.to_nat limit)%nat ->
  let created := POST_entries (Some c) body in
  outcome_of created = Return {[ "id" := VStr (new_id c) ]}
  /\ exists docs d,
       outcome_of (list_entries (db_after created) None None (Some limit))
       = Return docs
       /\ d ∈ docs
       /\ d !! "id" = Some (VStr (new_id c))
       /\ d !! "_id" = None
       /\ forall k : string, k <> "_id" -> k <> "id" ->
            d !! k = Entry.model_dump payload !! k.
Proof.
  intros S V B. unfold POST_entries. rewrite V. simpl. split; [done |].
  eexists. exists (serialize_doc (<["_id" := Oid (new_id c)]> (Entry.model_dump payload))).
  split; [reflexivity |].
  destruct (serialize_doc_renames_id
              (<["_id" := Oid (new_id c)]> (Entry.model_dump payload))
              (Oid (new_id c)) (lookup_insert_eq _ _ _)) as (N & I & K).
  split; [| split; [by rewrite I, S | split; [done |]]].
  - apply list_elem_of_fmap_2. rewrite take_ge.
    + apply list_elem_of_filter. split.
      * unfold list_entries_filter. simpl. apply map_Forall_empty.
      * apply (list_elem_of_fmap_2
                 (fun kv : string * doc => <["_id" := Oid kv.1]> kv.2)
                 _ (new_id c, Entry.model_dump payload)).
        apply elem_of_map_to_list, lookup_insert_eq.
    + etransitivity; [apply length_filter |].
      rewrite length_fmap, length_map_to_list, map_size_insert.
      destruct (c !! new_id c); unfold id; lia.
  - intros k K1 K2. rewrite (K k K1 K2). by rewrite lookup_insert_ne.
Qed.

(** X4. Deleting a stored entry answers [{deleted: true}] and removes that
    record and no other. *)
Theorem delete_removes_only_that_entry (c : collection) (entry_id id : string)
    (d : doc) :
  ObjectId entry_id = Some id ->
  c !! id = Some d ->
  exists c',
    delete_entry (Some c) entry_id
    = Ran (Return {[ "deleted" := VBool true ]}) (Some c') [DeleteOne id]
    /\ c' !! id = None
    /\ forall j : string, j <> id -> c' !! j = c !! j.
Proof.
  intros I L. exists (delete id c).
  rewrite (delete_entry_connected _ _ _ I), L. repeat split.
  - apply lookup_delete_eq.
  - intros j J. by apply lookup_delete_ne.
Qed.

(** X5. Creating an entry and deleting it by the identifier the create
    answered leaves the collection as it was before, when the store
    assigned an identifier that was free. *)
Theorem create_then_delete_restores (c : collection) (payload : Entry.t) :
  c !! new_id c = None ->
  ObjectId (new_id c) = Some (new_id c) ->
  let created := create_entry (Some c) payload in
  outcome_of created = Return {[ "id" := VStr (new_id c) ]}
  /\ delete_entry (db_after created) (new_id c)
     = Ran (Return {[ "deleted" := VBool true ]}) (Some c) [DeleteOne (new_id c)].
Proof.
  intros F I created. subst created. split; [done |].
  change (db_after (create_entry (Some c) payload))
    with (Some (<[new_id c := Entry.model_dump payload]> c)).
  rewrite (delete_entry_connected _ _ _ I), lookup_insert_eq.
  by rewrite delete_insert_id.
Qed.

Lemma validate_status_refused (body : list (string * json)) (s : string) :
  assoc "status" body = Some (JStr s) -> Status_of s = None ->
  validate_EntryUpdate body = Raise (RequestValidationError "status").
Proof.
  intros A S. unfold validate_EntryUpdate, literal. by rewrite A, S.
Qed.

(** X8. A partial update whose status is a text outside the four allowed
    ones is refused at validation, with status 422, before the handler
    runs: no store operation is issued, and this holds as well when no
    store is connected. *)
Theorem patch_unknown_status_is_refused (now : Z) (db : option collection)
    (entry_id : string) (body : list (string * json)) (s : string) :
  assoc "status" body = Some (JStr s) ->
  Status_of s = None ->
  PATCH_entries now db entry_id body
  = Ran (Raise (RequestValidationError "status")) db []
  /\ http_status (outcome_of (PATCH_entries now db entry_id body)) = 422.
Proof.
  intros A S. unfold PATCH_entries.
  by rewrite (validate_status_refused body s A S).
Qed.

Lemma bind_Raise {E A B} (m : result E A) (k : A -> result E B) (e : E) :
  bind m k = Raise e ->
  m = Raise e \/ exists a, m = Return a /\ k a = Raise e.
Proof. destruct m as [a | e']; simpl; [eauto | intros [= <-]; auto]. Qed.

Lemma optional_int_Return (field : string) (lo hi : Z)
    (body : list (string * json)) (r : option Z) :
  optional_int field (Some lo) (Some hi) body = Return r ->
  (forall n, r = Some n -> lo <= n <= hi)
  /\ (forall n, assoc field body = Some (JInt n) -> r = Some n).
Proof.
  unfold optional_int.
  destruct (assoc field body) as [[| b | n | t | l | o] |]; simpl;
    try discriminate; try (intros [= <-]; split; intros; congruence).
  destruct (Z.leb_spec lo n); destruct (Z.leb_spec n hi); simpl;
    try discriminate.
  intros [= <-]. split; intros m [= <-]; [lia | done].
Qed.

Lemma optional_int_Raise (field : string) (ge le : option Z)
    (body : list (string * json)) (e : exn) :
  optional_int field ge le body = Raise e -> e = RequestValidationError field.
Proof.
  unfold optional_int, invalid.
  destruct (assoc field body) as [[| b | n | t | l | o] |]; simpl;
    try discriminate; try congruence.
  destruct (_ && _); [discriminate | congruence].
Qed.

Lemma optional_str_Raise (field : string) (body : list (string * json))
    (e : exn) :
  optional_str field body = Raise e -> e = RequestValidationError field.
Proof.
  unfold optional_str, invalid.
  destruct (assoc field body) as [[| b | n | t | l | o] |]; simpl;
    try discriminate; congruence.
Qed.

Lemma literal_Raise {A} (of_string : string -> option A) (field : string)
    (v : json) (e : exn) :
  literal of_string field v = Raise e -> e = RequestValidationError field.
Proof.
  unfold literal, invalid. destruct v; try congruence.
  destruct (of_string s); [discriminate | congruence].
Qed.

Lemma validate_Entry_Raise (body : list (string * json)) (e : exn) :
  validate_Entry body = Raise e -> exists field, e = RequestValidationError field.
Proof.
  unfold validate_Entry. intros V.
  apply bind_Raise in V as [V | (title & _ & V)].
  { unfold required_str, invalid in V.
    destruct (assoc "title" body) as [[] |]; simplify_eq; eauto. }
  apply bind_Raise in V as [V | (media_type & _ & V)].
  { destruct (assoc "media_type" body).
    - apply literal_Raise in V. eauto.
    - unfold invalid in V. simplify_eq. eauto. }
  apply bind_Raise in V as [V | (year & _ & V)].
  { apply optional_int_Raise in V. eauto. }
  apply bind_Raise in V as [V | (image & _ & V)].
  { apply optional_str_Raise in V. eauto. }
  apply bind_Raise in V as [V | (external_id & _ & V)].
  { apply optional_str_Raise in V. eauto. }
  apply bind_Raise in V as [V | (source & _ & V)].
  { apply optional_str_Raise in V. eauto. }
  apply bind_Raise in V as [V | (status & _ & V)].
  { destruct (assoc "status" body).
    - apply literal_Raise in V. eauto.
    - discriminate. }
  apply bind_Raise in V as [V | (rating & _ & V)].
  { apply optional_int_Raise in V. eauto. }
  apply bind_Raise in V as [V | (review & _ & V)].
  { apply optional_str_Raise in V. eauto. }
  discriminate.
Qed.

Lemma validate_Entry_Return (body : list (string * json)) (e : Entry.t) :
  validate_Entry body = Return e ->
  required_str "title" body = Return (Entry.title e)
  /\ optional_int "year" (Some 1800) (Some 2100) body = Return (Entry.year e)
  /\ optional_int "rating" (Some 1) (Some 5) body = Return (Entry.rating e)
  /\ (assoc "status" body = None -> Entry.status e = Planned).
Proof.
  unfold validate_Entry. intros V.
  apply bind_Return in V as (title & T & V).
  apply bind_Return in V as (media_type & _ & V).
  apply bind_Return in V as (year & Y & V).
  apply bind_Return in V as (image & _ & V).
  apply bind_Return in V as (external_id & _ & V).
  apply bind_Return in V as (source & _ & V).
  apply bind_Return in V as (status & S & V).
  apply bind_Return in V as (rating & R & V).
  apply bind_Return in V as (review & _ & V).
  injection V as <-. simpl. repeat split; try done.
  intros N. rewrite N in S. by injection S.
Qed.

(** X9. An entry that passed validation keeps the bounds of the schema: its
    title is the text the body gave, its year, when it has one, lies in
    1800..2100, its rating, when it has one, in 1..5, and its status is
    [Planned] when the body gave none. *)
Theorem validated_entry_is_in_bounds (body : list (string * json))
    (e : Entry.t) :
  validate_Entry body = Return e ->
  assoc "title" body = Some (JStr (Entry.title e))
  /\ (forall y, Entry.year e = Some y -> 1800 <= y <= 2100)
  /\ (forall n, Entry.rating e = Some n -> 1 <= n <= 5)
  /\ (assoc "status" body = None -> Entry.status e = Planned).
Proof.
  intros (T & Y & R & S)%validate_Entry_Return.
  apply optional_int_Return in Y as [Y _].
  apply optional_int_Return in R as [R _].
  repeat split; try (by apply Y); try (by apply R); try done.
  unfold required_str, invalid in T.
  destruct (assoc "title" body) as [[] |]; by simplify_eq.
Qed.

(** X10. A create body whose rating is an integer outside 1..5, or whose
    year is an integer outside 1800..2100, is refused at validation with
    status 422; the handler does not run and no store operation is issued,
    whether or not a store is connected. *)
Theorem post_out_of_range_is_refused (db : option collection)
    (body : list (string * json)) :
  (exists n, assoc "rating" body = Some (JInt n) /\ ~ (1 <= n <= 5))
  \/ (exists y, assoc "year" body = Some (JInt y) /\ ~ (1800 <= y <= 2100)) ->
  exists field,
    POST_entries db body = Ran (Raise (RequestValidationError field)) db []
    /\ http_status (outcome_of (POST_entries db body)) = 422.
Proof.
  intros H. unfold POST_entries.
  destruct (validate_Entry body) as [e | x] eqn:V.
  - exfalso. apply validate_Entry_Return in V as (_ & Y & R & _).
    apply optional_int_Return in Y as [Y1 Y2].
    apply optional_int_Return in R as [R1 R2].
    destruct H as [(n & A & N) | (y & A & N)].
    + apply N, R1, R2, A.
    + apply N, Y1, Y2, A.
  - apply validate_Entry_Raise in V as [field ->]. by exists field.
Qed.

(** X11. In a partial update a field sent as [null] counts as not sent: on
    a connected store a body whose status, rating and review are each
    missing or [null] answers [{updated: false}], issues no store
    operation and leaves the collection as it was. *)
Theorem patch_null_fields_is_noop (now : Z) (c : collection)
    (entry_id : string) (body : list (string * json)) :
  missing_or_null "status" body ->
  missing_or_null "rating" body ->
  missing_or_null "review" body ->
  PATCH_entries now (Some c) entry_id body
  = Ran (Return {[ "updated" := VBool false ]}) (Some c) [].
Proof.
  unfold missing_or_null.
  intros [S | S] [R | R] [V | V];
    unfold PATCH_entries, validate_EntryUpdate, optional_int, optional_str;
    rewrite S, R, V; simpl; unfold update_entry; by destruct (decide _).
Qed.

Lemma elem_of_found (c : collection) (filt x : doc) :
  x ∈ filter (fun d : doc => map_Forall (fun k v => d !! k = Some v) filt)
             ((fun kv : string * doc => <["_id" := Oid kv.1]> kv.2)
                <$> map_to_list c) ->
  map_Forall (fun k v => x !! k = Some v) filt
  /\ exists id stored, c !! id = Some stored /\ x = <["_id" := Oid id]> stored.
Proof.
  intros [F ([id stored] & -> & M)%list_elem_of_fmap]%list_elem_of_filter.
  split; [done |]. exists id, stored. split; [| done].
  by apply elem_of_map_to_list.
Qed.

Lemma elem_of_listed (c : collection) (filt : doc) (limit : option Z) (x : doc) :
  x ∈ match limit with
      | Some n =>
          take (Z.to_nat n)
            (filter (fun d : doc => map_Forall (fun k v => d !! k = Some v) filt)
                    ((fun kv : string * doc => <["_id" := Oid kv.1]> kv.2)
                       <$> map_to_list c))
      | None =>
          filter (fun d : doc => map_Forall (fun k v => d !! k = Some v) filt)
                 ((fun kv : string * doc => <["_id" := Oid kv.1]> kv.2)
                    <$> map_to_list c)
      end ->
  map_Forall (fun k v => x !! k = Some v) filt
  /\ exists id stored, c !! id = Some stored /\ x = <["_id" := Oid id]> stored.
Proof.
  destruct limit as [n |]; [| apply elem_of_found].
  intros (i & L & _)%elem_of_take. apply elem_of_found.
  by eapply list_elem_of_lookup_2.
Qed.

(** X12. A listing on a connected store leaves the collection as it was,
    and each document it returns is a stored record with its identifier's
    text under ["id"], without ["_id"], and with its other fields as
    stored. *)
Theorem list_entries_shape (c : collection)
    (media_type status : option string) (limit : option Z) :
  exists docs,
    outcome_of (list_entries (Some c) media_type status limit) = Return docs
    /\ db_after (list_entries (Some c) media_type status limit) = Some c
    /\ (forall d, d ∈ docs ->
          d !! "_id" = None
          /\ exists id stored,
               c !! id = Some stored
               /\ d !! "id" = Some (VStr (py_str (Oid id)))
               /\ forall k : string, k <> "_id" -> k <> "id" ->
                    d !! k = stored !! k).
Proof.
  eexists. split; [reflexivity |]. split; [reflexivity |].
  - intros d (x & -> & X)%list_elem_of_fmap.
    apply elem_of_listed in X as (_ & id & stored & L & ->).
    split; [apply serialize_doc_no_id |]. exists id, stored.
    destruct (serialize_doc_renames_id (<["_id" := Oid id]> stored) (Oid id)
                (lookup_insert_eq _ _ _)) as (_ & I & K).
    split; [done |]. split; [done |].
    intros k K1 K2. rewrite (K k K1 K2). by rewrite lookup_insert_ne.
Qed.

(** X13. A listing filters by equality: with a [media_type] that is not
    empty every document returned has that media type, and with a [status]
    that is not empty every document returned has that status. *)
Theorem list_entries_filters (c : collection)
    (media_type status : option string) (limit : option Z)
    (docs : list doc) (d : doc) :
  outcome_of (list_entries (Some c) media_type status limit) = Return docs ->
  d ∈ docs ->
  (forall m, media_type = Some m -> m <> "" ->
             d !! "media_type" = Some (VStr m))
  /\ (forall s, status = Some s -> s <> "" -> d !! "status" = Some (VStr s)).
Proof.
  intros [= <-] (x & -> & X)%list_elem_of_fmap.
  apply elem_of_listed in X as (F & id & stored & L & ->).
  destruct (serialize_doc_renames_id (<["_id" := Oid id]> stored) (Oid id)
              (lookup_insert_eq _ _ _)) as (_ & _ & K).
  split.
  - intros m -> M. rewrite K by done. apply F.
    unfold list_entries_filter. simpl.
    destruct (String.eqb_spec m ""); [done |]. simpl.
    destruct (given status); [rewrite lookup_insert_ne by done |];
      apply lookup_insert_eq.
  - intros s -> S. rewrite K by done. apply F.
    unfold list_entries_filter. simpl.
    destruct (String.eqb_spec s ""); [done |]. simpl.
    apply lookup_insert_eq.
Qed.

(** ** Further properties of the search proxy *)

(** X14. A search with a query that is not blank sends exactly one
    request, whether it then succeeds or fails: to the provider of the
    media type, with the trimmed query, with a timeout of 10, asking Jikan
    for [min(limit, 10)] and iTunes for [min(limit, 20)] candidates, and
    giving TVMaze no limit. *)
Theorem search_sends_one_request (requests_get : request -> attempt response)
    (q : string) (media_type : MediaType) (limit : Z) :
  strip q <> "" ->
  exists req,
    snd (search requests_get q media_type limit) = [req]
    /\ timeout req = 10
    /\ match media_type with
       | anime =>
           url req = "https://api.jikan.moe/v4/anime"
           /\ params req = [("q", JStr (strip q));
                            ("limit", JInt (if limit <=? 10 then limit else 10));
                            ("sfw", JBool true)]
       | series =>
           url req = "https://api.tvmaze.com/search/shows"
           /\ params req = [("q", JStr (strip q))]
       | movie =>
           url req = "https://itunes.apple.com/search"
           /\ params req = [("term", JStr (strip q)); ("media", JStr "movie");
                            ("limit", JInt (if limit <=? 20 then limit else 20))]
       end.
Proof.
  intros N. rewrite (search_nonblank _ _ _ _ N). simpl.
  eexists. split; [reflexivity |]. destruct media_type; simpl.
  - do 2 (split; [done |]).
    destruct (Z.leb_spec limit 20);
      [rewrite Z.min_l by lia | rewrite Z.min_r by lia]; done.
  - done.
  - do 2 (split; [done |]).
    destruct (Z.leb_spec limit 10);
      [rewrite Z.min_l by lia | rewrite Z.min_r by lia]; done.
Qed.

Lemma chars_length (s : string) : length (chars s) = String.length s.
Proof. induction s as [| c s IH]; simpl; [done | by rewrite IH]. Qed.

Lemma sliced_items_length (v capped : json) (limit : Z) (items : list json) :
  0 <= limit ->
  py_slice_to v limit = Return capped ->
  py_iter capped = Return items ->
  (length items <= Z.to_nat limit)%nat.
Proof.
  intros L S I. unfold py_slice_to, list_slice_to, str_slice_to in S.
  destruct (Z.leb_spec 0 limit); [| lia].
  destruct v; simplify_eq; simpl in I; simplify_eq.
  - rewrite chars_length. apply substring_length_le.
  - rewrite length_take. lia.
Qed.

Lemma candidates_length (media_type : MediaType) (limit : Z) (r : response)
    (items : list json) :
  0 <= limit ->
  candidates media_type limit r = Return items ->
  (length items <= Z.to_nat limit)%nat.
Proof.
  intros L C. unfold candidates in C.
  apply bind_Return in C as (_u & _ & C).
  apply bind_Return in C as (payload & _ & C).
  destruct media_type.
  - apply bind_Return in C as (data & _ & C).
    apply bind_Return in C as (capped & S & C).
    by eapply sliced_items_length.
  - apply bind_Return in C as (capped & S & C).
    by eapply sliced_items_length.
  - apply bind_Return in C as (data & _ & C).
    apply bind_Return in C as (capped & S & C).
    by eapply sliced_items_length.
Qed.

Lemma search_Return (requests_get : request -> attempt response)
    (q : string) (media_type : MediaType) (limit : Z)
    (results : list SearchResult.t) :
  strip q <> "" ->
  fst (search requests_get q media_type limit) = Return results ->
  exists r items,
    requests_get (provider_request (strip q) media_type limit) = Return r
    /\ candidates media_type limit r = Return items
    /\ for_each (result_of media_type) items = Return results.
Proof.
  intros N. rewrite (search_nonblank _ _ _ _ N). simpl.
  destruct (requests_get _) as [r | text] eqn:R; simpl; [| discriminate].
  unfold search_results.
  destruct (candidates media_type limit r) as [items | text] eqn:C; simpl;
    [| discriminate].
  destruct (for_each _ items) as [rs |] eqn:F; [| discriminate].
  intros [= <-]. by exists r, items.
Qed.

(** X15. The results of a search answer the reply's capped candidates one
    for one, and with a limit that is not negative there are at most
    [limit] of them. *)
Theorem search_result_count (requests_get : request -> attempt response)
    (q : string) (media_type : MediaType) (limit : Z)
    (results : list SearchResult.t) :
  fst (search requests_get q media_type limit) = Return results ->
  (strip q <> "" ->
   exists r items,
     requests_get (provider_request (strip q) media_type limit) = Return r
     /\ candidates media_type limit r = Return items
     /\ length results = length items)
  /\ (0 <= limit -> (length results <= Z.to_nat limit)%nat).
Proof.
  intros S. split.
  - intros N. apply (search_Return _ _ _ _ _ N) in S as (r & items & R & C & F).
    exists r, items. do 2 (split; [done |]). symmetry.
    eapply Forall2_length, (for_each_Forall2 _ (fun _ _ => True)); [done | exact F].
  - intros L. destruct (decide (strip q = "")) as [E | N].
    + unfold search in S. rewrite E in S. simpl in S. injection S as <-.
      simpl. lia.
    + apply (search_Return _ _ _ _ _ N) in S as (r & items & R & C & F).
      apply (for_each_Forall2 _ (fun _ _ => True)) in F; [| done].
      apply Forall2_length in F. rewrite <- F. by eapply candidates_length.
Qed.

Lemma substring_nonempty (p : string) :
  p <> "" -> String.eqb (substring 0 4 p) "" = false.
Proof. destruct p; [done | reflexivity]. Qed.

(** [(date or "")[:4] or None], when the slice does not raise. *)
Lemma year_prefix_spec (date : option json) (first4 : json) :
  py_slice_to (py_or (default JNull date) (JStr "")) 4 = Return first4 ->
  py_or first4 JNull = year_prefix date.
Proof.
  unfold py_or, year_prefix.
  destruct date as [[| b | n | t | l | o] |]; simpl.
  - by intros [= <-].
  - destruct b; simpl; [discriminate | by intros [= <-]].
  - destruct (n =? 0); simpl; [by intros [= <-] | discriminate].
  - destruct (String.eqb_spec t ""); simpl; intros [= <-].
    + by subst.
    + unfold str_slice_to. simpl. by rewrite substring_nonempty.
  - destruct l; simpl; by intros [= <-].
  - destruct o; simpl; [by intros [= <-] | discriminate].
  - by intros [= <-].
Qed.

Lemma series_result_rule (item : json) (res : SearchResult.t) :
  series_result item = Return res -> series_rule item res.
Proof.
  destruct item as [| b | n | t | l | fields]; try discriminate.
  unfold series_result. simpl. intros E.
  destruct (default (JObj []) (assoc "show" fields))
    as [| b | n | t | l | show] eqn:S; try discriminate.
  exists fields, show. do 2 (split; [done |]). simpl in E.
  apply bind_Return in E as (first4 & Y & E).
  apply bind_Return in E as (original & _ & E).
  apply bind_Return in E as (image & _ & E).
  injection E as <-. simpl. split; [done |].
  by apply year_prefix_spec.
Qed.

Lemma movie_result_rule (item : json) (res : SearchResult.t) :
  movie_result item = Return res -> movie_rule item res.
Proof.
  destruct item as [| b | n | t | l | fields]; try discriminate.
  unfold movie_result. simpl. intros E. exists fields. split; [done |].
  apply bind_Return in E as (first4 & Y & E).
  injection E as <-. simpl. split; [done |].
  split; [by apply year_prefix_spec | done].
Qed.

Lemma jpg_image_spec (fields : list (string * json)) (key : string) (v : json) :
  jpg_image (JObj fields) key = Return v ->
  v = default JNull (assoc key (jpg_of fields)).
Proof.
  unfold jpg_image, jpg_of, py_or. simpl.
  destruct (assoc "images" fields) as [[| b | n | t | l | images] |]; simpl;
    try discriminate; try congruence.
  destruct (assoc "jpg" images) as [[| b | n | t | l | jpg] |]; simpl;
    try congruence.
  - destruct b; simpl; [discriminate | congruence].
  - destruct (n =? 0); simpl; [congruence | discriminate].
  - destruct (String.eqb t ""); simpl; [congruence | discriminate].
  - destruct l; simpl; [congruence | discriminate].
  - destruct jpg; simpl; congruence.
Qed.

Lemma anime_result_image (item : json) (res : SearchResult.t) :
  anime_result item = Return res -> anime_image_rule item res.
Proof.
  destruct item as [| b | n | t | l | fields]; try discriminate.
  unfold anime_result. intros E. exists fields. split; [done |].
  apply bind_Return in E as (title & T & E).
  apply bind_Return in E as (own & _ & E).
  apply bind_Return in E as (year & _ & E).
  apply bind_Return in E as (large & L & E).
  apply bind_Return in E as (image & I & E).
  apply bind_Return in E as (mal_id & _ & E).
  injection E as <-. simpl. simpl in T. injection T as <-. split; [done |].
  apply jpg_image_spec in L as <-.
  unfold py_or_else in I. unfold py_or.
  destruct (truthy large); [congruence |].
  by apply jpg_image_spec in I.
Qed.

(** X16. When a series search returns results, each carries its show's
    name as title and, as year, the first four characters of the premiere
    date, or [None] when that date is missing, [null] or empty. *)
Theorem series_fields_of_results (requests_get : request -> attempt response)
    (q : string) (limit : Z) (results : list SearchResult.t) :
  strip q <> "" ->
  fst (search requests_get q series limit) = Return results ->
  exists r items,
    requests_get (provider_request (strip q) series limit) = Return r
    /\ candidates series limit r = Return items
    /\ Forall2 series_rule items results.
Proof.
  intros N S. apply (search_Return _ _ _ _ _ N) in S as (r & items & R & C & F).
  exists r, items. do 2 (split; [done |]).
  eapply for_each_Forall2; [| exact F]. apply series_result_rule.
Qed.

(** X17. When a movie search returns results, each carries its track's
    name as title, the artwork address as it came as image, and, as year,
    the first four characters of the release date, or [None] when that
    date is missing, [null] or empty. *)
Theorem movie_fields_of_results (requests_get : request -> attempt response)
    (q : string) (limit : Z) (results : list SearchResult.t) :
  strip q <> "" ->
  fst (search requests_get q movie limit) = Return results ->
  exists r items,
    requests_get (provider_request (strip q) movie limit) = Return r
    /\ candidates movie limit r = Return items
    /\ Forall2 movie_rule items results.
Proof.
  intros N S. apply (search_Return _ _ _ _ _ N) in S as (r & items & R & C & F).
  exists r, items. do 2 (split; [done |]).
  eapply for_each_Forall2; [| exact F]. apply movie_result_rule.
Qed.

(** X18. When an anime search returns results, each carries its
    candidate's title and, as image, the large JPG image when the
    candidate has one and the standard JPG image otherwise. *)
Theorem anime_image_of_results (requests_get : request -> attempt response)
    (q : string) (limit : Z) (results : list SearchResult.t) :
  strip q <> "" ->
  fst (search requests_get q anime limit) = Return results ->
  exists r items,
    requests_get (provider_request (strip q) anime limit) = Return r
    /\ candidates anime limit r = Return items
    /\ Forall2 anime_image_rule items results.
Proof.
  intros N S. apply (search_Return _ _ _ _ _ N) in S as (r & items & R & C & F).
  exists r, items. do 2 (split; [done |]).
  eapply for_each_Forall2; [| exact F]. apply anime_result_image.
Qed.

Lemma result_of_tags (media_type : MediaType) (item : json)
    (res : SearchResult.t) :
  result_of media_type item = Return res ->
  SearchResult.source res = provider_name media_type
  /\ SearchResult.media_type res = MediaType_str media_type.
Proof.
  destruct media_type; simpl; intros E.
  - unfold movie_result in E.
    apply bind_Return in E as (? & _ & E). apply bind_Return in E as (? & _ & E).
    apply bind_Return in E as (? & _ & E). apply bind_Return in E as (? & _ & E).
    apply bind_Return in E as (? & _ & E). by injection E as <-.
  - unfold series_result in E.
    apply bind_Return in E as (? & _ & E). apply bind_Return in E as (? & _ & E).
    apply bind_Return in E as (? & _ & E). apply bind_Return in E as (? & _ & E).
    apply bind_Return in E as (? & _ & E). apply bind_Return in E as (? & _ & E).
    apply bind_Return in E as (? & _ & E). apply bind_Return in E as (? & _ & E).
    by injection E as <-.
  - unfold anime_result in E.
    apply bind_Return in E as (? & _ & E). apply bind_Return in E as (? & _ & E).
    apply bind_Return in E as (? & _ & E). apply bind_Return in E as (? & _ & E).
    apply bind_Return in E as (? & _ & E). apply bind_Return in E as (? & _ & E).
    by injection E as <-.
Qed.

Lemma for_each_Forall {A B} (f : A -> attempt B) (P : B -> Prop) :
  (forall a b, f a = Return b -> P b) ->
  forall items rs, for_each f items = Return rs -> Forall P rs.
Proof.
  intros F. induction items as [| item items IH]; simpl; intros rs E.
  - injection E as <-. constructor.
  - apply bind_Return in E as (r & R & E).
    apply bind_Return in E as (rs' & RS & E).
    injection E as <-. constructor; eauto.
Qed.

(** X19. Every result of a search names the one provider of the requested
    media type as its source and echoes the requested media type. *)
Theorem results_carry_their_provider
    (requests_get : request -> attempt response)
    (q : string) (media_type : MediaType) (limit : Z)
    (results : list SearchResult.t) :
  fst (search requests_get q media_type limit) = Return results ->
  Forall (fun res =>
            SearchResult.source res = provider_name media_type
            /\ SearchResult.media_type res = MediaType_str media_type)
         results.
Proof.
  intros S. destruct (decide (strip q = "")) as [E | N].
  - unfold search in S. rewrite E in S. simpl in S. injection S as <-.
    constructor.
  - apply (search_Return _ _ _ _ _ N) in S as (r & items & R & C & F).
    eapply for_each_Forall; [| exact F].
    intros a b. apply result_of_tags.
Qed.

Lemma result_of_not_object (media_type : MediaType) (item : json) :
  is_object item = false -> exists text, result_of media_type item = Raise text.
Proof.
  destruct item; try discriminate; intros _; destruct media_type; simpl;
    eexists; reflexivity.
Qed.

Lemma for_each_Raise {A B} (f : A -> attempt B) (items : list A) (a : A) :
  a ∈ items -> (exists text, f a = Raise text) ->
  exists text, for_each f items = Raise text.
Proof.
  intros M [t T]. induction items as [| b rest IH]; simpl.
  - by apply elem_of_nil in M.
  - apply elem_of_cons in M as [<- | M].
    + rewrite T. by exists t.
    + destruct (f b) as [rb | tb]; simpl; [| by exists tb].
      destruct (IH M) as [t' E]. rewrite E. by exists t'.
Qed.

(** X20. A search returns all of its candidates' results or none: when one
    of the capped candidates is not a JSON object, the search raises the
    502 error, whatever the other candidates are. *)
Theorem search_all_or_nothing (requests_get : request -> attempt response)
    (q : string) (media_type : MediaType) (limit : Z)
    (r : response) (items : list json) (item : json) :
  strip q <> "" ->
  requests_get (provider_request (strip q) media_type limit) = Return r ->
  candidates media_type limit r = Return items ->
  item ∈ items ->
  is_object item = false ->
  exists text,
    fst (search requests_get q media_type limit)
    = Raise (HTTPException 502 ("Search failed: " +:+ substring 0 120 text)).
Proof.
  intros N R C M O. rewrite (search_nonblank _ _ _ _ N). simpl.
  rewrite R. simpl. unfold search_results. rewrite C. simpl.
  destruct (for_each_Raise (result_of media_type) items item M
              (result_of_not_object media_type item O)) as [text ->].
  by exists text.
Qed.

(** X21. A reply that is a JSON object without the list of candidates, the
    key ["data"] for Jikan and ["results"] for iTunes, is read as an empty
    list: the search returns no results and raises nothing, whatever the
    limit is. *)
Theorem search_missing_list_is_empty
    (requests_get : request -> attempt response)
    (q : string) (media_type : MediaType) (limit : Z)
    (r : response) (fields : list (string * json)) :
  strip q <> "" ->
  media_type <> series ->
  requests_get (provider_request (strip q) media_type limit) = Return r ->
  ~ (400 <= status_code r < 600) ->
  json_body r = Return (JObj fields) ->
  assoc (match media_type with anime => "data" | _ => "results" end) fields
  = None ->
  fst (search requests_get q media_type limit) = Return [].
Proof.
  intros N M R S J A. rewrite (search_nonblank _ _ _ _ N). simpl.
  rewrite R. simpl. unfold search_results, candidates, raise_for_status.
  assert ((400 <=? status_code r) && (status_code r <? 600) = false) as ->.
  { destruct (Z.leb_spec 400 (status_code r));
      destruct (Z.ltb_spec (status_code r) 600); simpl; try done. lia. }
  simpl. rewrite J. simpl.
  assert (list_slice_to limit (@nil json) = []) as E.
  { unfold list_slice_to. destruct (0 <=? limit); apply take_nil. }
  destruct media_type; [| done |]; rewrite A; simpl; by rewrite E.
Qed.

(** X22. A negative limit is not refused: it drops the last candidates, as
    many as the limit's magnitude, as Python's slice does. For an anime
    reply with a list of candidates under ["data"] the loop runs over all
    but the last [-limit] of them. *)
Theorem negative_limit_drops_from_the_end (limit : Z) (r : response)
    (fields : list (string * json)) (l : list json) :
  limit < 0 ->
  ~ (400 <= status_code r < 600) ->
  json_body r = Return (JObj fields) ->
  assoc "data" fields = Some (JArr l) ->
  candidates anime limit r
  = Return (take (length l - Z.to_nat (- limit)) l).
Proof.
  intros L S J A. unfold candidates, raise_for_status.
  assert ((400 <=? status_code r) && (status_code r <? 600) = false) as ->.
  { destruct (Z.leb_spec 400 (status_code r));
      destruct (Z.ltb_spec (status_code r) 600); simpl; try done. lia. }
  simpl. rewrite J. simpl. rewrite A. simpl. unfold list_slice_to.
  by destruct (Z.leb_spec 0 limit); [lia |].
Qed.

(** ** The diagnostic endpoint *)

(** X23. The diagnostic report lists at most ten collections, the first
    ones the store names; it says [Connected] exactly when there is a
    handle; a probe that raises is reported, with the first 80 characters
    of its text, and leaves the list empty and the status [Connected]; and
    an empty [DATABASE_URL] is reported like one that is not set. *)
Theorem test_database_report (db : option handle) (DATABASE_URL : option string) :
  (length (collections (test_database db DATABASE_URL)) <= 10)%nat
  /\ (connection_status (test_database db DATABASE_URL) = "Connected"
      <-> db <> None)
  /\ (forall h names,
        db = Some h -> list_collection_names h = Return names ->
        collections (test_database db DATABASE_URL) = take 10 names)
  /\ (forall h text,
        db = Some h -> list_collection_names h = Raise text ->
        collections (test_database db DATABASE_URL) = []
        /\ connection_status (test_database db DATABASE_URL) = "Connected"
        /\ database (test_database db DATABASE_URL)
           = "⚠️ Connected but Error: " +:+ substring 0 80 text)
  /\ test_database db (Some "") = test_database db None.
Proof.
  split; [| split; [| split; [| split]]].
  - destruct db as [[name [names | text]] |]; simpl; try lia.
    rewrite length_take. lia.
  - destruct db as [[name [names | text]] |]; simpl; split; done.
  - intros h names -> L. unfold test_database. by rewrite L.
  - intros h text -> L. unfold test_database. by rewrite L.
  - reflexivity.
Qed.

End NebulaDiary.

(** ** The statements at concrete inputs *)

(** C1. A partial update with rating 7 is not refused at validation: the
    body is a valid [EntryUpdate] and the handler runs. With no store
    connected it answers the unavailability error, where a body that
    fails validation is answered 422; on a connected store it stops at
    the attribute access and is answered 500. The same rating in a create
    body is refused by [Entry], whose [rating] is declared with
    [ge=1, le=5]. *)
Theorem patch_rating_7_passes_validation :
  validate_EntryUpdate [("rating", JInt 7)]
  = Return {| EntryUpdate.status := None; EntryUpdate.rating := Some 7;
              EntryUpdate.review := None |}
  /\ PATCH_entries ObjectId24 noon None dune_id [("rating", JInt 7)]
     = Ran (Raise (HTTPException 500 "Database not available")) None []
  /\ PATCH_entries ObjectId24 noon (Some diary) dune_id [("rating", JInt 7)]
     = Ran (Raise no_datetime) (Some diary) []
  /\ http_status
       (outcome_of (PATCH_entries ObjectId24 noon (Some diary) dune_id
                      [("rating", JInt 7)])) = 500
  /\ validate_Entry [("title", JStr "Dune"); ("media_type", JStr "movie");
                     ("rating", JInt 7)]
     = Raise (RequestValidationError "rating").
Proof.
  destruct (patch_rating_unchecked ObjectId24 noon 7 (Some diary) dune_id)
    as [V P].
  split; [exact V |]. split; [reflexivity |].
  rewrite P, update_entry_supplied by (right; left; discriminate).
  repeat split.
Qed.

(** C2. A partial update of the stored entry that supplies a status and a
    rating is not applied: the handler raises at the attribute access
    [requests.utils.datetime], before the identifier is converted and
    before the store is reached. The answer is the 500 of an uncaught
    exception, no store operation is issued, and the record keeps its
    fields and gets no [updated_at]. *)
Theorem patch_with_fields_raises :
  PATCH_entries ObjectId24 noon (Some diary) dune_id
    [("status", JStr "Completed"); ("rating", JInt 5)]
  = Ran (Raise no_datetime) (Some diary) []
  /\ http_status
       (outcome_of (PATCH_entries ObjectId24 noon (Some diary) dune_id
                      [("status", JStr "Completed"); ("rating", JInt 5)]))
     = 500
  /\ diary !! dune_id = Some dune
  /\ dune !! "status" = Some (VStr "Planned")
  /\ dune !! "updated_at" = None.
Proof.
  assert (PATCH_entries ObjectId24 noon (Some diary) dune_id
            [("status", JStr "Completed"); ("rating", JInt 5)]
          = Ran (Raise no_datetime) (Some diary) []) as P.
  { change (PATCH_entries ObjectId24 noon (Some diary) dune_id
              [("status", JStr "Completed"); ("rating", JInt 5)])
      with (update_entry ObjectId24 noon (Some diary) dune_id
              {| EntryUpdate.status := Some Completed;
                 EntryUpdate.rating := Some 5;
                 EntryUpdate.review := None |}).
    apply update_entry_supplied. left. discriminate. }
  rewrite P. repeat split.
Qed.

(** C5, as stated, fails with no store connected: the body has no
    recognized field and the answer is the unavailability error, not
    [{updated: false}]. *)
Lemma patch_without_fields_unavailable :
  no_recognized_field [("note", JStr "x")]
  /\ outcome_of (PATCH_entries ObjectId24 noon None dune_id [("note", JStr "x")])
     = Raise (HTTPException 500 "Database not available")
  /\ outcome_of (PATCH_entries ObjectId24 noon None dune_id [("note", JStr "x")])
     <> Return {[ "updated" := VBool false ]}.
Proof.
  split; [repeat split |]. split; [reflexivity | discriminate].
Qed.

(** C5, amended, at a concrete input. *)
Lemma patch_without_fields_is_noop_witness :
  PATCH_entries ObjectId24 noon (Some diary) dune_id [("note", JStr "x")]
  = Ran (Return {[ "updated" := VBool false ]}) (Some diary) [].
Proof.
  apply (patch_without_fields_is_noop ObjectId24 noon diary dune_id).
  repeat split; reflexivity.
Defined.

(** C6, as stated, fails for a partial update that supplies no field: the
    identifier matches no stored entry and the answer is
    [{updated: false}], not the not-found error. It fails as well for an
    identifier that is no ObjectId: the delete raises [InvalidId]. *)
Lemma patch_unknown_id_without_fields :
  ObjectId24 other_id = Some other_id
  /\ diary !! other_id = None
  /\ PATCH_entries ObjectId24 noon (Some diary) other_id []
     = Ran (Return {[ "updated" := VBool false ]}) (Some diary) []
  /\ outcome_of (PATCH_entries ObjectId24 noon (Some diary) other_id [])
     <> Raise not_found
  /\ diary !! "not-an-id" = None
  /\ outcome_of (delete_entry ObjectId24 (Some diary) "not-an-id")
     = Raise (InvalidId "not-an-id")
  /\ outcome_of (delete_entry ObjectId24 (Some diary) "not-an-id")
     <> Raise not_found.
Proof.
  repeat split; try reflexivity; discriminate.
Qed.

(** C6, amended, at a concrete input: an identifier the collection does
    not hold. *)
Lemma unknown_id_is_not_found_witness :
  (diary !! other_id = None ->
     delete_entry ObjectId24 (Some diary) other_id
     = Ran (Raise not_found) (Some diary) [DeleteOne other_id])
  /\ outcome_of
       (delete_entry ObjectId24
          (db_after (delete_entry ObjectId24 (Some diary) other_id)) other_id)
     = Raise not_found
  /\ (forall (now : Z) (payload : EntryUpdate.t),
        ~ supplies payload ->
        update_entry ObjectId24 now (Some diary) other_id payload
        = Ran (Return {[ "updated" := VBool false ]}) (Some diary) []).
Proof.
  apply (unknown_id_is_not_found ObjectId24 diary other_id other_id).
  reflexivity.
Defined.

(** C9, as stated, fails for a partial update that supplies no field: the
    identifier is no ObjectId, the conversion is not reached, and the
    handler returns instead of raising. *)
Lemma patch_invalid_id_without_fields :
  ObjectId24 "not-an-id" = None
  /\ PATCH_entries ObjectId24 noon (Some diary) "not-an-id" []
     = Ran (Return {[ "updated" := VBool false ]}) (Some diary) []
  /\ forall e, outcome_of (PATCH_entries ObjectId24 noon (Some diary)
                             "not-an-id" []) <> Raise e.
Proof.
  repeat split; try reflexivity. discriminate.
Qed.

(** C9, amended, at a concrete input. *)
Lemma invalid_id_never_reaches_store_witness :
  delete_entry ObjectId24 (Some diary) "not-an-id"
  = Ran (Raise (InvalidId "not-an-id")) (Some diary) []
  /\ outcome_of (delete_entry ObjectId24 (Some diary) "not-an-id")
     <> Raise not_found
  /\ (forall (now : Z) (payload : EntryUpdate.t),
        ~ supplies payload ->
        update_entry ObjectId24 now (Some diary) "not-an-id" payload
        = Ran (Return {[ "updated" := VBool false ]}) (Some diary) []).
Proof.
  apply (invalid_id_never_reaches_store ObjectId24 diary "not-an-id").
  reflexivity.
Defined.


(** C4, as stated, fails on the length: a provider that cannot be reached
    yields the 502 error, and its detail is 135 characters long. *)
Lemma search_detail_exceeds_120 :
  exists detail,
    fst (search str_scalar dict_slice_error311 (always (Raise pool_error))
           "dune" movie 10)
    = Raise (HTTPException 502 detail)
    /\ String.length detail = 135%nat
    /\ (120 < String.length detail)%nat.
Proof.
  eexists. split; [reflexivity |]. split; [reflexivity |].
  vm_compute. lia.
Qed.

(** C4, amended, at a concrete input: the provider cannot be reached. *)
Lemma search_failure_is_bad_gateway_witness :
  fst (search str_scalar dict_slice_error311 (always (Raise pool_error))
         "dune" movie 10)
  = Raise (HTTPException 502
             ("Search failed: " +:+ substring 0 120 pool_error)).
Proof.
  apply (proj1 (search_failure_is_bad_gateway str_scalar dict_slice_error311
                  (always (Raise pool_error)) "dune" movie 10)).
  - vm_compute. discriminate.
  - apply no_reply.
Defined.

(** C7, at a concrete input: a query of two spaces. *)
Lemma search_blank_query_witness :
  search str_scalar dict_slice_error311 (always (Raise pool_error))
    "  " movie 10
  = (Return [], []).
Proof.
  apply (search_blank_query str_scalar dict_slice_error311).
  left. reflexivity.
Defined.

(** C8, as stated, fails for a candidate whose own year is [0]: the year
    is present, and the result carries the first-aired year instead. *)
Lemma anime_year_zero_falls_back :
  assoc "year" year_zero = Some (JInt 0)
  /\ exists res,
       fst (search str_scalar dict_slice_error311 (jikan [year_zero])
              "one piece" anime 10)
       = Return [res]
       /\ SearchResult.year res = JInt 1999
       /\ SearchResult.year res <> JInt 0.
Proof.
  split; [reflexivity |]. eexists. split; [reflexivity |].
  split; [reflexivity | discriminate].
Qed.

(** C8, amended, at a concrete input: a candidate without a year of its
    own and with a first-aired year. *)
Lemma anime_year_of_results_witness :
  exists r items,
    jikan [bebop] (provider_request (strip "bebop") anime 10) = Return r
    /\ candidates dict_slice_error311 anime 10 r = Return items
    /\ Forall2 anime_year_rule items
         [ {| SearchResult.title := JStr "Cowboy Bebop";
              SearchResult.year := JInt 1998;
              SearchResult.image := JNull;
              SearchResult.external_id := "1";
              SearchResult.source := "jikan";
              SearchResult.media_type := "anime" |} ].
Proof.
  apply (anime_year_of_results str_scalar dict_slice_error311 (jikan [bebop])
           "bebop" 10).
  - vm_compute. discriminate.
  - reflexivity.
Defined.

(** ** The further statements at concrete inputs *)

(** X1, at the stored entry as the store returns it. *)
Lemma serialize_doc_renames_id_witness :
  serialize_doc str_scalar (<["_id" := Oid dune_id]> dune) !! "_id" = None
  /\ serialize_doc str_scalar (<["_id" := Oid dune_id]> dune) !! "id"
     = Some (VStr dune_id)
  /\ forall k : string, k <> "_id" -> k <> "id" ->
       serialize_doc str_scalar (<["_id" := Oid dune_id]> dune) !! k
       = (<["_id" := Oid dune_id]> dune) !! k.
Proof.
  apply (serialize_doc_renames_id str_scalar (<["_id" := Oid dune_id]> dune)
           (Oid dune_id)).
  reflexivity.
Defined.

(** X3, at a create body with the required fields only and the route's
    default limit. *)
Lemma created_entry_is_listed_witness :
  let body := [("title", JStr "Arrival"); ("media_type", JStr "movie")] in
  let created := POST_entries assign_other (Some diary) body in
  outcome_of created = Return {[ "id" := VStr other_id ]}
  /\ exists docs d,
       outcome_of (list_entries str_scalar (db_after created) None None
                     (Some 100))
       = Return docs
       /\ d ∈ docs
       /\ d !! "id" = Some (VStr other_id)
       /\ d !! "_id" = None
       /\ forall k : string, k <> "_id" -> k <> "id" ->
            d !! k = Entry.model_dump arrival !! k.
Proof.
  apply (created_entry_is_listed assign_other str_scalar diary
           [("title", JStr "Arrival"); ("media_type", JStr "movie")]
           arrival 100).
  - reflexivity.
  - reflexivity.
  - vm_compute. lia.
Defined.

(** X4, at the stored entry. *)
Lemma delete_removes_only_that_entry_witness :
  exists c',
    delete_entry ObjectId24 (Some diary) dune_id
    = Ran (Return {[ "deleted" := VBool true ]}) (Some c') [DeleteOne dune_id]
    /\ c' !! dune_id = None
    /\ forall j : string, j <> dune_id -> c' !! j = diary !! j.
Proof.
  apply (delete_removes_only_that_entry ObjectId24 diary dune_id dune_id dune);
    reflexivity.
Defined.

(** X5, at the collection of the examples. *)
Lemma create_then_delete_restores_witness :
  outcome_of (create_entry assign_other (Some diary) arrival)
  = Return {[ "id" := VStr other_id ]}
  /\ delete_entry ObjectId24
       (db_after (create_entry assign_other (Some diary) arrival)) other_id
     = Ran (Return {[ "deleted" := VBool true ]}) (Some diary)
           [DeleteOne other_id].
Proof.
  apply (create_then_delete_restores ObjectId24 assign_other diary arrival);
    reflexivity.
Defined.

(** X8, at a status that is not one of the four, with no store connected. *)
Lemma patch_unknown_status_is_refused_witness :
  PATCH_entries ObjectId24 noon None dune_id [("status", JStr "Paused")]
  = Ran (Raise (RequestValidationError "status")) None []
  /\ http_status (outcome_of (PATCH_entries ObjectId24 noon None dune_id
                                [("status", JStr "Paused")])) = 422.
Proof.
  apply (patch_unknown_status_is_refused ObjectId24 noon None dune_id
           [("status", JStr "Paused")] "Paused");
    reflexivity.
Defined.

(** X9, at a body with a year and a rating. *)
Lemma validated_entry_is_in_bounds_witness :
  let body := [("title", JStr "Dune"); ("media_type", JStr "movie");
               ("year", JInt 2021); ("rating", JInt 4)] in
  let e := {| Entry.title := "Dune"; Entry.media_type := movie;
              Entry.year := Some 2021; Entry.image := None;
              Entry.external_id := None; Entry.source := None;
              Entry.status := Planned; Entry.rating := Some 4;
              Entry.review := None |} in
  assoc "title" body = Some (JStr (Entry.title e))
  /\ (forall y, Entry.year e = Some y -> 1800 <= y <= 2100)
  /\ (forall n, Entry.rating e = Some n -> 1 <= n <= 5)
  /\ (assoc "status" body = None -> Entry.status e = Planned).
Proof.
  apply (validated_entry_is_in_bounds
           [("title", JStr "Dune"); ("media_type", JStr "movie");
            ("year", JInt 2021); ("rating", JInt 4)]).
  reflexivity.
Defined.

(** X10, at a create body with rating 7. *)
Lemma post_out_of_range_is_refused_witness :
  let body := [("title", JStr "Dune"); ("media_type", JStr "movie");
               ("rating", JInt 7)] in
  exists field,
    POST_entries assign_other (Some diary) body
    = Ran (Raise (RequestValidationError field)) (Some diary) []
    /\ http_status (outcome_of (POST_entries assign_other (Some diary) body))
       = 422.
Proof.
  apply (post_out_of_range_is_refused assign_other (Some diary)
           [("title", JStr "Dune"); ("media_type", JStr "movie");
            ("rating", JInt 7)]).
  left. exists 7. split; [reflexivity | lia].
Defined.

(** X11, at a body that sends a [null] review and nothing else. *)
Lemma patch_null_fields_is_noop_witness :
  PATCH_entries ObjectId24 noon (Some diary) dune_id [("review", JNull)]
  = Ran (Return {[ "updated" := VBool false ]}) (Some diary) [].
Proof.
  apply (patch_null_fields_is_noop ObjectId24 noon diary dune_id
           [("review", JNull)]).
  - left. reflexivity.
  - left. reflexivity.
  - right. reflexivity.
Defined.

(** X12, at the collection of the examples. *)
Lemma list_entries_shape_witness :
  exists docs,
    outcome_of (list_entries str_scalar (Some diary) (Some "movie") None
                  (Some 100)) = Return docs
    /\ db_after (list_entries str_scalar (Some diary) (Some "movie") None
                   (Some 100)) = Some diary
    /\ (forall d, d ∈ docs ->
          d !! "_id" = None
          /\ exists id stored,
               diary !! id = Some stored
               /\ d !! "id" = Some (VStr (str_scalar (Oid id)))
               /\ forall k : string, k <> "_id" -> k <> "id" ->
                    d !! k = stored !! k).
Proof.
  apply (list_entries_shape str_scalar diary (Some "movie") None (Some 100)).
Defined.

(** X13, at a listing of the movies of the examples' collection. *)
Lemma list_entries_filters_witness :
  let d := serialize_doc str_scalar (<["_id" := Oid dune_id]> dune) in
  (forall m, Some "movie" = Some m -> m <> "" ->
             d !! "media_type" = Some (VStr m))
  /\ (forall s, @None string = Some s -> s <> "" ->
                d !! "status" = Some (VStr s)).
Proof.
  apply (list_entries_filters str_scalar diary (Some "movie") None None
           [serialize_doc str_scalar (<["_id" := Oid dune_id]> dune)]).
  - vm_compute. reflexivity.
  - apply list_elem_of_here.
Defined.

(** X14, at an anime search that asks for 50 results. *)
Lemma search_sends_one_request_witness :
  exists req,
    snd (search str_scalar dict_slice_error311 (jikan [bebop])
           " bebop " anime 50) = [req]
    /\ timeout req = 10
    /\ url req = "https://api.jikan.moe/v4/anime"
    /\ params req = [("q", JStr (strip " bebop "));
                     ("limit", JInt (if 50 <=? 10 then 50 else 10));
                     ("sfw", JBool true)].
Proof.
  apply (search_sends_one_request str_scalar dict_slice_error311
           (jikan [bebop]) " bebop " anime 50).
  vm_compute. discriminate.
Defined.

(** X15, at a series search with limit 1 and two candidates. *)
Lemma search_result_count_witness :
  let results :=
    [ {| SearchResult.title := JStr "The Wire";
         SearchResult.year := JStr "2002";
         SearchResult.image := JStr "https://tv.example/m.jpg";
         SearchResult.external_id := "179";
         SearchResult.source := "tvmaze";
         SearchResult.media_type := "series" |} ] in
  (strip "wire" <> "" ->
   exists r items,
     tvmaze [the_wire; undated_show] (provider_request (strip "wire") series 1)
     = Return r
     /\ candidates dict_slice_error311 series 1 r = Return items
     /\ length results = length items)
  /\ (0 <= 1 -> (length results <= Z.to_nat 1)%nat).
Proof.
  apply (search_result_count str_scalar dict_slice_error311
           (tvmaze [the_wire; undated_show]) "wire" series 1).
  reflexivity.
Defined.

(** X16, at a show with a premiere date and a show without. *)
Lemma series_fields_of_results_witness :
  exists r items,
    tvmaze [the_wire; undated_show] (provider_request (strip "wire") series 10)
    = Return r
    /\ candidates dict_slice_error311 series 10 r = Return items
    /\ Forall2 series_rule items
         [ {| SearchResult.title := JStr "The Wire";
              SearchResult.year := JStr "2002";
              SearchResult.image := JStr "https://tv.example/m.jpg";
              SearchResult.external_id := "179";
              SearchResult.source := "tvmaze";
              SearchResult.media_type := "series" |};
           {| SearchResult.title := JStr "Pilot";
              SearchResult.year := JNull;
              SearchResult.image := JNull;
              SearchResult.external_id := "5";
              SearchResult.source := "tvmaze";
              SearchResult.media_type := "series" |} ].
Proof.
  apply (series_fields_of_results str_scalar dict_slice_error311
           (tvmaze [the_wire; undated_show]) "wire" 10).
  - vm_compute. discriminate.
  - reflexivity.
Defined.

(** X17, at one track. *)
Lemma movie_fields_of_results_witness :
  exists r items,
    itunes [dune_track] (provider_request (strip "dune") movie 10) = Return r
    /\ candidates dict_slice_error311 movie 10 r = Return items
    /\ Forall2 movie_rule items
         [ {| SearchResult.title := JStr "Dune";
              SearchResult.year := JStr "2021";
              SearchResult.image := JStr "https://is1.example/100x100bb.jpg";
              SearchResult.external_id := "1585809846";
              SearchResult.source := "itunes";
              SearchResult.media_type := "movie" |} ].
Proof.
  apply (movie_fields_of_results str_scalar dict_slice_error311
           (itunes [dune_track]) "dune" 10).
  - vm_compute. discriminate.
  - reflexivity.
Defined.

(** X18, at a candidate whose large image is [null]. *)
Lemma anime_image_of_results_witness :
  exists r items,
    jikan [bebop_with_images] (provider_request (strip "bebop") anime 10)
    = Return r
    /\ candidates dict_slice_error311 anime 10 r = Return items
    /\ Forall2 anime_image_rule items
         [ {| SearchResult.title := JStr "Cowboy Bebop";
              SearchResult.year := JInt 1998;
              SearchResult.image := JStr "https://cdn.example/s.jpg";
              SearchResult.external_id := "1";
              SearchResult.source := "jikan";
              SearchResult.media_type := "anime" |} ].
Proof.
  apply (anime_image_of_results str_scalar dict_slice_error311
           (jikan [bebop_with_images]) "bebop" 10).
  - vm_compute. discriminate.
  - reflexivity.
Defined.

(** X19, at a movie search. *)
Lemma results_carry_their_provider_witness :
  Forall (fun res =>
            SearchResult.source res = "itunes"
            /\ SearchResult.media_type res = "movie")
    [ {| SearchResult.title := JStr "Dune";
         SearchResult.year := JStr "2021";
         SearchResult.image := JStr "https://is1.example/100x100bb.jpg";
         SearchResult.external_id := "1585809846";
         SearchResult.source := "itunes";
         SearchResult.media_type := "movie" |} ].
Proof.
  apply (results_carry_their_provider str_scalar dict_slice_error311
           (itunes [dune_track]) "dune" movie 10).
  reflexivity.
Defined.

(** X20, at a reply whose second candidate is a text. *)
Lemma search_all_or_nothing_witness :
  exists text,
    fst (search str_scalar dict_slice_error311
           (always (ok_reply (JObj [("data", JArr [JObj bebop; JStr "oops"])])))
           "bebop" anime 10)
    = Raise (HTTPException 502 ("Search failed: " +:+ substring 0 120 text)).
Proof.
  apply (search_all_or_nothing str_scalar dict_slice_error311
           (always (ok_reply (JObj [("data", JArr [JObj bebop; JStr "oops"])])))
           "bebop" anime 10
           {| status_code := 200; http_error := "";
              json_body := Return (JObj [("data", JArr [JObj bebop; JStr "oops"])]) |}
           [JObj bebop; JStr "oops"] (JStr "oops")).
  - vm_compute. discriminate.
  - reflexivity.
  - reflexivity.
  - apply list_elem_of_further, list_elem_of_here.
  - reflexivity.
Defined.

(** X21, at a Jikan reply that carries only an error note. *)
Lemma search_missing_list_is_empty_witness :
  fst (search str_scalar dict_slice_error311
         (always (ok_reply (JObj [("status", JInt 200); ("note", JStr "no data")])))
         "bebop" anime 10)
  = Return [].
Proof.
  apply (search_missing_list_is_empty str_scalar dict_slice_error311
           (always (ok_reply (JObj [("status", JInt 200); ("note", JStr "no data")])))
           "bebop" anime 10
           {| status_code := 200; http_error := "";
              json_body := Return (JObj [("status", JInt 200); ("note", JStr "no data")]) |}
           [("status", JInt 200); ("note", JStr "no data")]).
  - vm_compute. discriminate.
  - discriminate.
  - reflexivity.
  - simpl. lia.
  - reflexivity.
  - reflexivity.
Defined.

(** X22, at three candidates and limit -1. *)
Lemma negative_limit_drops_from_the_end_witness :
  candidates dict_slice_error311 anime (-1)
    {| status_code := 200; http_error := "";
       json_body := Return (JObj [("data", JArr [JInt 1; JInt 2; JInt 3])]) |}
  = Return (take (length [JInt 1; JInt 2; JInt 3] - Z.to_nat (- -1))
              [JInt 1; JInt 2; JInt 3]).
Proof.
  apply (negative_limit_drops_from_the_end dict_slice_error311 (-1)
           {| status_code := 200; http_error := "";
              json_body := Return (JObj [("data", JArr [JInt 1; JInt 2; JInt 3])]) |}
           [("data", JArr [JInt 1; JInt 2; JInt 3])] [JInt 1; JInt 2; JInt 3]).
  - lia.
  - simpl. lia.
  - reflexivity.
  - reflexivity.
Defined.

(** X23, at a handle whose probe raises. *)
Lemma test_database_report_witness :
  collections (test_database (Some failing_probe) (Some "mongodb://db")) = []
  /\ connection_status (test_database (Some failing_probe) (Some "mongodb://db"))
     = "Connected"
  /\ database (test_database (Some failing_probe) (Some "mongodb://db"))
     = "⚠️ Connected but Error: " +:+ substring 0 80 "connection refused".
Proof.
  apply (proj1 (proj2 (proj2 (proj2
           (test_database_report (Some failing_probe) (Some "mongodb://db")))))
           failing_probe "connection refused");
    reflexivity.
Defined.
